(** * Commure-Assignment: the SQL agent and its evaluation harness

    A shallow embedding of [src/utils.py] (the equivalence judge and the
    evaluation loop) and of [src/lang_graph.py] (the two-node agent graph),
    followed by the properties the specification states about them.

    Modelling conventions.
    - A Python [str] is a Rocq [string]; every [ascii] stands for one code
      point in the range U+0000..U+00FF.
    - External collaborators (the SQL helper, the chat-completion API, the
      chat model, the tools) are oracles: functions of the number of calls
      made so far and of the call's argument, returning either a value or a
      raised exception.  Every behaviour of a collaborator during one
      sequential run is such a function.
    - [exn] stands for the instances of Python's [Exception] class, the ones
      an [except Exception] clause catches.
    - Effects ([time.sleep], [print], calls to collaborators) are recorded,
      in program order, in the trace of an explicit world that is threaded
      through a state-and-exception monad. *)

From Stdlib Require Import NArith ZArith Ascii String.
From stdpp Require Import base option list strings gmap.

Local Open Scope string_scope.
Set Warnings "-register-all".

(** ** Python strings *)

Module PyStr.

(** [str.isspace] on a single code point below U+0100. *)
Definition isspace (c : ascii) : bool :=
  let n := N_of_ascii c in
  (N.leb 9 n && N.leb n 13) || (N.leb 28 n && N.leb n 32)
  || N.eqb n 133 || N.eqb n 160.

(** [str.lower] on a single code point below U+0100: A-Z and the Latin-1
    capitals (all of U+00C0..U+00DE but the multiplication sign). *)
Definition lower_char (c : ascii) : ascii :=
  let n := N_of_ascii c in
  if (N.leb 65 n && N.leb n 90)
     || (N.leb 192 n && N.leb n 222 && negb (N.eqb n 215))
  then ascii_of_N (n + 32) else c.

Fixpoint lower (s : string) : string :=
  match s with
  | EmptyString => EmptyString
  | String c s' => String (lower_char c) (lower s')
  end.

Fixpoint lstrip (s : string) : string :=
  match s with
  | EmptyString => EmptyString
  | String c s' => if isspace c then lstrip s' else s
  end.

Fixpoint rstrip (s : string) : string :=
  match s with
  | EmptyString => EmptyString
  | String c s' =>
      match rstrip s' with
      | EmptyString => if isspace c then EmptyString else String c EmptyString
      | r => String c r
      end
  end.

(** [s.strip()] with no argument. *)
Definition strip (s : string) : string := rstrip (lstrip s).

(** Every code point of [s] is white space. *)
Fixpoint all_space (s : string) : bool :=
  match s with
  | EmptyString => true
  | String c s' => isspace c && all_space s'
  end.

Definition nl : string := String "010"%char EmptyString.
Definition dquote : string := String "034"%char EmptyString.

End PyStr.

(** ** Python values and exceptions *)

(** The values a duck-typed collaborator may hand back. *)
Inductive pyval : Type :=
| PyNone
| PyBool (b : bool)
| PyInt (z : Z)
| PyStr (s : string)
| PyList (l : list pyval)
| PyTuple (l : list pyval).

(** An instance of [Exception]: its class name and [str(err)]. *)
Record exn : Type := Exn { exn_class : string; exn_str : string }.

Inductive result (E A : Type) : Type :=
| Return (a : A)
| Raise (e : E).
Arguments Return {E A} a.
Arguments Raise {E A} e.

Module Py.

(** Truth value testing, as done by [not v] and [if v]. *)
Definition truthy (v : pyval) : bool :=
  match v with
  | PyNone => false
  | PyBool b => b
  | PyInt z => negb (Z.eqb z 0)
  | PyStr s => negb (String.eqb s "")
  | PyList l | PyTuple l => match l with [] => false | _ => true end
  end.

Definition type_name (v : pyval) : string :=
  match v with
  | PyNone => "NoneType"
  | PyBool _ => "bool"
  | PyInt _ => "int"
  | PyStr _ => "str"
  | PyList _ => "list"
  | PyTuple _ => "tuple"
  end.

(** [v[0]] *)
Definition getitem0 (v : pyval) : result exn pyval :=
  match v with
  | PyStr (String c _) => Return (PyStr (String c EmptyString))
  | PyList (x :: _) | PyTuple (x :: _) => Return x
  | PyStr EmptyString => Raise (Exn "IndexError" "string index out of range")
  | PyList [] | PyTuple [] =>
      Raise (Exn "IndexError" (type_name v ++ " index out of range"))
  | PyNone | PyBool _ | PyInt _ =>
      Raise (Exn "TypeError"
               ("'" ++ type_name v ++ "' object is not subscriptable"))
  end.

(** The [AttributeError] of [v.attr] when [v] has no such attribute. *)
Definition no_attribute (v : pyval) (attr : string) : exn :=
  Exn "AttributeError"
    ("'" ++ type_name v ++ "' object has no attribute '" ++ attr ++ "'").

(** [v.strip()] *)
Definition strip (v : pyval) : result exn string :=
  match v with
  | PyStr s => Return (PyStr.strip s)
  | _ => Raise (no_attribute v "strip")
  end.

End Py.

(** ** A state-and-exception monad

    [M E W A] is a computation over a world [W] that returns an [A] or
    raises an [E]; the world reached is kept in both cases, as effects done
    before a [raise] are not undone. *)

Definition M (E W A : Type) : Type := W → result E A * W.

Section MonadOps.
Context {E W : Type}.

#[export] Instance M_ret : MRet (M E W) := λ A a w, (Return a, w).

#[export] Instance M_bind : MBind (M E W) := λ A B f m w,
  match m w with
  | (Return a, w') => f a w'
  | (Raise e, w') => (Raise e, w')
  end.

Definition raise {A} (e : E) : M E W A := λ w, (Raise e, w).

(** A pure step that may raise. *)
Definition lift {A} (r : result E A) : M E W A := λ w, (r, w).

(** [try: body  except Exception as err: handler err] *)
Definition try_except {A} (body : M E W A) (handler : E → M E W A) : M E W A :=
  λ w, match body w with
       | (Return a, w') => (Return a, w')
       | (Raise e, w') => handler e w'
       end.

(** [for x in xs: acc = body x acc], stopping at the first exception. *)
Fixpoint for_each {X A} (xs : list X) (body : X → A → M E W A) (acc : A)
  : M E W A :=
  match xs with
  | [] => mret acc
  | x :: xs' => acc' ← body x acc; for_each xs' body acc'
  end.

End MonadOps.

(** ** [src/utils.py]: the equivalence judge and the evaluation loop *)

Module Utils.

(** A chat-completion request and its response.  A choice is represented
    by its [message.content], which the API may leave out. *)
Record chat_request : Type := ChatRequest {
  req_model : string;
  req_messages : list (string * string);   (* role, content *)
  req_temperature : nat
}.

Record chat_response : Type := ChatResponse {
  choices : list (option string)
}.

Inductive event : Type :=
| EvSleep (seconds : nat)                     (* [time.sleep] *)
| EvPrint (line : string)                     (* [print] *)
| EvGetSql (nlq : string)                     (* [sql_helper.get_sql] *)
| EvJudge (nlq sql1 sql2 : string)            (* entry of [judge_sql_similarity] *)
| EvChatCreate (req : chat_request).          (* [OpenAI().chat.completions.create] *)

Record world : Type := World {
  get_sql_calls : nat;
  chat_calls : nat;
  trace : list event
}.

(** A test case, [{'question': ..., 'actual_query': ...}]: a dictionary
    with both keys, each holding a string, as the docstring of [evaluate]
    asks for. *)
Record test_case : Type := TestCase {
  question : string;
  actual_query : string
}.

(** A result record.  [None] in [generated_sql] and
    [llm_judged_equivalent] is Python's [None]; [None] in [error] is a
    dictionary without the key ["error"]. *)
Record eval_result : Type := EvalResult {
  res_question : string;
  expected_sql : string;
  generated_sql : option string;
  exact_match : bool;
  llm_judged_equivalent : option string;
  error : option string
}.

Definition pad : string := "            ".
Definition line (s : string) : string := pad ++ s ++ PyStr.nl.

(** The f-string of [judge_sql_similarity]. *)
Definition judge_prompt (nlq sql1 sql2 : string) : string :=
  PyStr.nl ++
  line ("You are a SQL expert. A user asked a question, and two SQL " ++
        "queries were generated in response. Judge if both queries " ++
        "are equivalent in meaning and would produce the similar " ++
        "result. If there are extra columns like ID column etc. that " ++
        "is fine. When executed, they should produce a similar " ++
        "result. For instance, if the question is to fetch all " ++
        "doctor names, then getting doctor names with Doctor ID is " ++
        "fine but getting the appointments of doctors is not correct.") ++
  line "" ++
  line "Respond ONLY with one of the following:" ++
  line ("- " ++ PyStr.dquote ++ "Equivalent" ++ PyStr.dquote) ++
  line ("- " ++ PyStr.dquote ++ "Not Equivalent" ++ PyStr.dquote) ++
  line "" ++
  line ("User Question: " ++ nlq) ++
  line "" ++
  line "Query 1:" ++
  line sql1 ++
  line "" ++
  line "Query 2:" ++
  line sql2 ++
  line "" ++
  line "Are the queries equivalent?" ++
  pad.

(** [resp.choices[0].message.content] *)
Definition first_choice_content (resp : chat_response) : result exn pyval :=
  match choices resp with
  | [] => Raise (Exn "IndexError" "list index out of range")
  | Some s :: _ => Return (PyStr s)
  | None :: _ => Return PyNone
  end.

Section WithCollaborators.
(** The [k]-th call of [sql_helper.get_sql]. *)
Variable sql_helper : nat → string → result exn pyval.
(** The [k]-th construction of a client followed by its
    [chat.completions.create] call. *)
Variable chat_api : nat → chat_request → result exn chat_response.

Definition emit (e : event) : M exn world unit := λ w,
  (Return (),
   {| get_sql_calls := get_sql_calls w; chat_calls := chat_calls w;
      trace := trace w ++ [e] |}).

Definition sleep (seconds : nat) : M exn world unit := emit (EvSleep seconds).
Definition print (s : string) : M exn world unit := emit (EvPrint s).

Definition get_sql (nlq : string) : M exn world pyval := λ w,
  (sql_helper (get_sql_calls w) nlq,
   {| get_sql_calls := S (get_sql_calls w); chat_calls := chat_calls w;
      trace := trace w ++ [EvGetSql nlq] |}).

Definition chat_completions_create (req : chat_request)
  : M exn world chat_response := λ w,
  (chat_api (chat_calls w) req,
   {| get_sql_calls := get_sql_calls w; chat_calls := S (chat_calls w);
      trace := trace w ++ [EvChatCreate req] |}).

Definition judge_sql_similarity (nlq sql1 sql2 : string)
  : M exn world string :=
  emit (EvJudge nlq sql1 sql2);;
  let prompt := judge_prompt nlq sql1 sql2 in
  try_except
    (resp ← chat_completions_create
              {| req_model := "gpt-4o";
                 req_messages := [("user", prompt)];
                 req_temperature := 0 |};
     content ← lift (first_choice_content resp);
     decision ← lift (Py.strip content);
     mret decision)
    (λ err,
       print ("[Error] LLM judge failed: " ++ exn_str err);;
       mret "Error").

(** The body of the [for] loop of [evaluate]; [results] is the list
    the loop appends to. *)
Definition evaluate_case (case : test_case) (results : list eval_result)
  : M exn world (list eval_result) :=
  sleep 2;;
  let nlq := question case in
  print nlq;;
  let expected_sql := actual_query case in
  try_except
    (generated_sql ←
       try_except (get_sql nlq)
         (λ err,
            print ("[evaluate] Error occurred: " ++ exn_str err ++
                   ". Sleeping 4s and retrying once...");;
            sleep 4;;
            get_sql nlq);
     (* [not generated_sql or not generated_sql[0]] *)
     no_sql ←
       (if negb (Py.truthy generated_sql) then mret true
        else first ← lift (Py.getitem0 generated_sql);
             mret (negb (Py.truthy first)));
     if no_sql : bool then raise (Exn "ValueError" "Agent returned no SQL.")
     else
       first ← lift (Py.getitem0 generated_sql);
       match first with
       | PyStr sql =>
           let exact_match :=
             String.eqb (PyStr.lower (PyStr.strip sql))
                        (PyStr.lower (PyStr.strip expected_sql)) in
           llm_judgment ←
             (if negb exact_match then
                j ← try_except
                      (judge_sql_similarity nlq expected_sql sql)
                      (λ err,
                         print ("[judge] Error: " ++ exn_str err ++
                                ". Sleeping 4s and retrying once...");;
                         sleep 4;;
                         judge_sql_similarity nlq expected_sql sql);
                mret (Some j)
              else mret None);
           mret (app results
                 [ {| res_question := nlq;
                      expected_sql := expected_sql;
                      generated_sql := Some sql;
                      exact_match := exact_match;
                      llm_judged_equivalent := llm_judgment;
                      error := None |} ])
       | other =>
           (* [.strip] is an attribute of [str] only *)
           raise (Py.no_attribute other "strip")
       end)
    (λ err,
       print ("[evaluate] Skipped due to error after retry: " ++
              exn_str err);;
       mret (app results
             [ {| res_question := nlq;
                  expected_sql := expected_sql;
                  generated_sql := None;
                  exact_match := false;
                  llm_judged_equivalent := None;
                  error := Some (exn_str err) |} ])).

Definition evaluate (test_cases : list test_case)
  : M exn world (list eval_result) :=
  for_each test_cases evaluate_case [].

End WithCollaborators.

(** Number of entries into [judge_sql_similarity] recorded in a trace. *)
Definition is_judge (e : event) : bool :=
  match e with EvJudge _ _ _ => true | _ => false end.

Definition judge_calls (t : list event) : nat :=
  length (List.filter is_judge t).

(** [v] is the value the generation step of [evaluate] ends with when it
    starts at call [k] of the helper: what that call returns or, when it
    raises, what the next call returns. *)
Definition generated (sql_helper : nat → string → result exn pyval)
    (k : nat) (nlq : string) (v : pyval) : Prop :=
  sql_helper k nlq = Return v
  ∨ (∃ err, sql_helper k nlq = Raise err) ∧ sql_helper (S k) nlq = Return v.

End Utils.

(** ** [src/lang_graph.py]: the agent graph *)

Module LangGraph.

Local Open Scope list_scope.
Local Open Scope nat_scope.

(** A tool call requested by the model: [t['name']], [t['args']],
    [t['id']]. *)
Record tool_call : Type := ToolCall {
  tc_name : string;
  tc_args : gmap string pyval;
  tc_id : string
}.

Inductive message : Type :=
| SystemMessage (content : string)
| HumanMessage (content : string)
| AIMessage (content : string) (tool_calls : list tool_call)
| ToolMessage (tool_call_id name content : string).

(** [AgentState]; the one channel, [messages], is annotated with
    [operator.add]. *)
Record AgentState : Type := State { messages : list message }.

(** The reducer of the channel: an update returned by a node is added to
    the right of the stored list. *)
Definition operator_add (stored update : AgentState) : AgentState :=
  {| messages := messages stored ++ messages update |}.

(** What went wrong in a node.  Nothing in the module catches these. *)
Inductive error : Type :=
| IndexError                       (* [state['messages'][-1]], empty list *)
| AttributeError (m : message)     (* [m.tool_calls], [m] has none *)
| KeyError (key : string)          (* [self.tools[key]] *)
| Raised (e : exn).                (* raised by the model or by a tool *)

(** A tool: its [name] and the outcome of its [k]-th-overall [invoke]. *)
Record tool : Type := Tool {
  name : string;
  invoke : nat → gmap string pyval → result exn pyval
}.

(** A model bound to tools: the outcome of the [k]-th [invoke], an
    assistant message given by its content and its tool calls. *)
Definition bound_model : Type :=
  nat → list message → result exn (string * list tool_call).

Inductive event : Type :=
| EvModelInvoke (input : list message)
| EvToolInvoke (tool_name : string) (args : gmap string pyval).

Record world : Type := World {
  model_calls : nat;
  tool_invocations : nat;
  trace : list event
}.

(** The attributes of an [Agent].  The attribute [graph] is not a field:
    the compiled graph is given below by its nodes and its edges. *)
Record Agent : Type := {
  system : string;
  tools : gmap string tool;
  model : bound_model
}.

(** [state['messages'][-1]] *)
Definition last_message (state : AgentState) : result error message :=
  match last (messages state) with
  | Some m => Return m
  | None => Raise IndexError
  end.

(** [m.tool_calls] *)
Definition get_tool_calls (m : message) : result error (list tool_call) :=
  match m with
  | AIMessage _ tcs => Return tcs
  | _ => Raise (AttributeError m)
  end.

Inductive node : Type := llm | action.

Section WithStr.
(** The built-in [str] on tool results. *)
Variable str : pyval → string.

(** The fields [__init__] sets.  In [{tool.name: tool for tool in
    tools}] a later tool replaces an earlier one of the same name. *)
Definition init (model : list tool → bound_model) (tools : list tool)
    (system : string) : Agent :=
  {| system := system;
     tools := foldl (λ d t, <[name t := t]> d) ∅ tools;
     model := model tools |}.

Definition model_invoke (self : Agent) (input : list message)
  : M error world message := λ w,
  (match model self (model_calls w) input with
   | Return (content, tcs) => Return (AIMessage content tcs)
   | Raise e => Raise (Raised e)
   end,
   {| model_calls := S (model_calls w);
      tool_invocations := tool_invocations w;
      trace := trace w ++ [EvModelInvoke input] |}).

Definition tool_invoke (t : tool) (args : gmap string pyval)
  : M error world pyval := λ w,
  (match invoke t (tool_invocations w) args with
   | Return v => Return v
   | Raise e => Raise (Raised e)
   end,
   {| model_calls := model_calls w;
      tool_invocations := S (tool_invocations w);
      trace := trace w ++ [EvToolInvoke (name t) args] |}).

(** The messages handed to the model. *)
Definition model_input (self : Agent) (state : AgentState) : list message :=
  if negb (String.eqb (system self) "")
  then [SystemMessage (system self)] ++ messages state
  else messages state.

(** Node ["llm"]; the value is the update [{'messages': [message]}]. *)
Definition call_openai (self : Agent) (state : AgentState)
  : M error world AgentState :=
  let messages := model_input self state in
  message ← model_invoke self messages;
  mret {| messages := [message] |}.

(** The condition of the edges leaving ["llm"]. *)
Definition exists_action (self : Agent) (state : AgentState)
  : M error world bool :=
  result ← lift (last_message state);
  tcs ← lift (get_tool_calls result);
  mret (0 <? length tcs).

(** The body of the [for] loop of [take_action]. *)
Definition run_tool_call (self : Agent) (t : tool_call)
    (results : list message) : M error world (list message) :=
  tl ← lift (match tools self !! tc_name t with
             | Some tl => Return tl
             | None => Raise (KeyError (tc_name t))
             end);
  result ← tool_invoke tl (tc_args t);
  mret (results ++ [ToolMessage (tc_id t) (tc_name t) (str result)]).

(** Node ["action"]; the value is the update [{'messages': results}]. *)
Definition take_action (self : Agent) (state : AgentState)
  : M error world AgentState :=
  last ← lift (last_message state);
  tool_calls ← lift (get_tool_calls last);
  results ← for_each tool_calls (run_tool_call self) [];
  mret {| messages := results |}.

(** The graph of [__init__]: two nodes, entry point ["llm"], an edge
    from ["action"] to ["llm"], and conditional edges from ["llm"] to
    ["action"] or to [END] ([None]). *)
Definition node_fn (self : Agent) (n : node)
  : AgentState → M error world AgentState :=
  match n with
  | llm => call_openai self
  | action => take_action self
  end.

Definition next_node (self : Agent) (n : node) (state : AgentState)
  : M error world (option node) :=
  match n with
  | llm => b ← exists_action self state;
           mret (if b : bool then Some action else None)
  | action => mret (Some llm)
  end.

Definition entry_point : node := llm.

(** One step of the graph: run the node, add its update to the state,
    follow the edge. *)
Definition step (self : Agent) (n : node) (state : AgentState)
  : M error world (option node * AgentState) :=
  update ← node_fn self n state;
  let state' := operator_add state update in
  next ← next_node self n state';
  mret (next, state').

(** Running the graph from a node for at most [fuel] steps; [None] when
    the steps are used up before [END] is reached. *)
Fixpoint run (fuel : nat) (self : Agent) (n : node) (state : AgentState)
  : M error world (option AgentState) :=
  match fuel with
  | 0 => mret None
  | S fuel' =>
      '(next, state') ← step self n state;
      match next with
      | None => mret (Some state')
      | Some n' => run fuel' self n' state'
      end
  end.

(** [self.graph.invoke(input)] *)
Definition graph_invoke (fuel : nat) (self : Agent) (input : AgentState)
  : M error world (option AgentState) :=
  run fuel self entry_point input.

(** Configurations of a run: the node to execute next ([None] at
    [END]), the state and the world. *)
Definition config : Type := option node * AgentState * world.

Inductive graph_step (self : Agent) : config → config → Prop :=
| graph_step_intro n state w next state' w' :
    step self n state w = (Return (next, state'), w') →
    graph_step self (Some n, state, w) (next, state', w').

End WithStr.

Definition config_messages (c : config) : list message := messages (c.1.2).

End LangGraph.

(** ** Concrete collaborators

    Helpers, APIs, agents and conversations on which the properties below
    are exercised. *)

Module Scenario.

Definition doctors : Utils.test_case :=
  {| Utils.question := "List all doctor names";
     Utils.actual_query := "SELECT name FROM doctors;" |}.

Definition start : Utils.world :=
  {| Utils.get_sql_calls := 0; Utils.chat_calls := 0; Utils.trace := [] |}.

(** A helper that always answers, without the semicolon and in lower
    case. *)
Definition steady_helper : nat → string → result exn pyval :=
  λ _ _, Return (PyList [PyStr "select name from doctors"]).

(** A helper whose first call times out. *)
Definition flaky_helper : nat → string → result exn pyval :=
  λ k _, match k with
         | 0 => Raise (Exn "TimeoutError" "timed out")
         | S _ => Return (PyList [PyStr "select name from doctors"])
         end.

(** A helper that is down. *)
Definition down_helper : nat → string → result exn pyval :=
  λ _ _, Raise (Exn "ConnectionError" "connection refused").

(** A helper that answers in capitals and with white space around. *)
Definition shouting_helper : nat → string → result exn pyval :=
  λ _ _, Return (PyList [PyStr "  SELECT NAME FROM DOCTORS;  "]).

(** A helper that answers with an empty string. *)
Definition silent_helper : nat → string → result exn pyval :=
  λ _ _, Return (PyList [PyStr ""]).

(** An API whose model answers in a sentence of its own. *)
Definition wordy_api
  : nat → Utils.chat_request → result exn Utils.chat_response :=
  λ _ _, Return {| Utils.choices := [Some " The queries are equivalent. "] |}.

(** [str] on the values the tools below return. *)
Definition str_of (v : pyval) : string :=
  match v with
  | PyStr s => s
  | PyNone => "None"
  | PyBool true => "True"
  | PyBool false => "False"
  | _ => ""
  end.

Definition list_tables : LangGraph.tool :=
  {| LangGraph.name := "list_tables";
     LangGraph.invoke := λ _ _, Return (PyStr "doctors, appointments") |}.

Definition call_list_tables : LangGraph.tool_call :=
  {| LangGraph.tc_name := "list_tables";
     LangGraph.tc_args := ∅;
     LangGraph.tc_id := "call_1" |}.

Definition call_describe_table : LangGraph.tool_call :=
  {| LangGraph.tc_name := "describe_table";
     LangGraph.tc_args := {[ "table" := PyStr "doctors" ]};
     LangGraph.tc_id := "call_7" |}.

(** A model that asks for the tables first and answers afterwards. *)
Definition planner : list LangGraph.tool → LangGraph.bound_model :=
  λ _ k _, match k with
           | 0 => Return ("", [call_list_tables])
           | S _ => Return ("SELECT name FROM doctors", [])
           end.

Definition agent : LangGraph.Agent :=
  LangGraph.init planner [list_tables] "You write SQL.".

Definition fresh : LangGraph.world :=
  {| LangGraph.model_calls := 0; LangGraph.tool_invocations := 0;
     LangGraph.trace := [] |}.

Definition asked : LangGraph.AgentState :=
  {| LangGraph.messages :=
       [LangGraph.HumanMessage "List all doctor names"] |}.

(** A conversation that ended with an assistant message without tool
    calls. *)
Definition answered : LangGraph.AgentState :=
  {| LangGraph.messages :=
       [LangGraph.HumanMessage "List all doctor names";
        LangGraph.AIMessage "SELECT name FROM doctors" []] |}.

(** States whose last message asks for a registered and for an
    unregistered tool. *)
Definition wants_tables : LangGraph.AgentState :=
  {| LangGraph.messages :=
       [LangGraph.HumanMessage "List all doctor names";
        LangGraph.AIMessage "" [call_list_tables]] |}.

Definition wants_description : LangGraph.AgentState :=
  {| LangGraph.messages :=
       [LangGraph.HumanMessage "List all doctor names";
        LangGraph.AIMessage "" [call_describe_table]] |}.

(** The state and the world at the end of the run of [agent] on
    [asked]. *)
Definition after_tools : LangGraph.AgentState :=
  {| LangGraph.messages :=
       [LangGraph.HumanMessage "List all doctor names";
        LangGraph.AIMessage "" [call_list_tables];
        LangGraph.ToolMessage "call_1" "list_tables" "doctors, appointments";
        LangGraph.AIMessage "SELECT name FROM doctors" []] |}.

Definition spent : LangGraph.world :=
  Eval vm_compute in
    (LangGraph.graph_invoke str_of 3 agent asked fresh).2.

End Scenario.

(** ** [src/utils.py]: running a SQL script file *)

Module Script.

(** [os.path.join] on a POSIX system: [b.startswith('/')] and
    [path.endswith('/')], then the body of the loop of [join]. *)
Definition startswith_sep (s : string) : bool :=
  match s with
  | String c _ => Ascii.eqb c "/"
  | EmptyString => false
  end.

Fixpoint endswith_sep (s : string) : bool :=
  match s with
  | EmptyString => false
  | String c EmptyString => Ascii.eqb c "/"
  | String _ s' => endswith_sep s'
  end.

Definition join_step (path b : string) : string :=
  if startswith_sep b then b
  else if String.eqb path EmptyString || endswith_sep path then path ++ b
  else path ++ "/" ++ b.

Definition path_join (a : string) (p : list string) : string :=
  foldl join_step a p.

Inductive event : Type :=
| EvOpen (path : string)                (* [open(path, 'r')] *)
| EvRead                                (* [file.read()] *)
| EvClose                               (* leaving the [with] block *)
| EvExecuteScript (script : string).    (* [cursor.executescript] *)

Record world : Type := World { trace : list event }.

Section WithFiles.
(** The directory of the module, [Path(__file__).resolve().parent]. *)
Variable module_dir : string.
(** The file system: what [open(path, 'r')] gives and, when it gives a
    file, what [file.read()] gives. *)
Variable open_read : string → result exn (result exn string).

Definition emit (evs : list event) : M exn world unit := λ w,
  (Return (), {| trace := app (trace w) evs |}).

(** [with open(path, 'r') as file: text = file.read()]; the file is closed
    when the block is left, also by an exception of [read]. *)
Definition read_text (path : string) : M exn world string :=
  emit [EvOpen path];;
  file ← lift (open_read path);
  emit [EvRead; EvClose];;
  lift file.

(** [cursor] is the outcome of [cursor.executescript] on a script. *)
Definition execute_sql_script (cursor : string → result exn unit)
    (script_file_path : string) : M exn world unit :=
  let base_dir := module_dir in
  let sql_file := path_join base_dir ["SQL_Files"; script_file_path] in
  sql_script ← read_text sql_file;
  emit [EvExecuteScript sql_script];;
  lift (cursor sql_script).

End WithFiles.

Definition is_execute (e : event) : bool :=
  match e with EvExecuteScript _ => true | _ => false end.

End Script.

(** ** Measures on traces and histories *)

Module Measure.

(** Seconds spent in [time.sleep] along a trace of [Utils]. *)
Definition sleep_seconds (t : list Utils.event) : nat :=
  foldr (λ e n, match e with Utils.EvSleep s => s + n | _ => n end) 0 t.

(** A record that went to the judge: SQL was generated and did not match. *)
Definition judged (r : Utils.eval_result) : bool :=
  match Utils.generated_sql r with
  | Some _ => negb (Utils.exact_match r)
  | None => false
  end.

Definition is_assistant (m : LangGraph.message) : bool :=
  match m with LangGraph.AIMessage _ _ => true | _ => false end.

Definition is_tool_result (m : LangGraph.message) : bool :=
  match m with LangGraph.ToolMessage _ _ _ => true | _ => false end.

(** The identifier and the tool name a tool-result message carries. *)
Definition answers (m : LangGraph.message) : option (string * string) :=
  match m with
  | LangGraph.ToolMessage id name _ => Some (id, name)
  | _ => None
  end.

(** The number of tool calls that the assistant messages of a history
    ask for. *)
Definition requested_calls (history : list LangGraph.message) : nat :=
  foldr (λ m n, match m with
                | LangGraph.AIMessage _ tcs => length tcs + n
                | _ => n
                end) 0 history.

(** The tool calls still to be run when a node is entered: those of the
    last message, at the [action] node. *)
Definition pending_calls (n : LangGraph.node) (history : list LangGraph.message)
  : nat :=
  match n, last history with
  | LangGraph.action, Some (LangGraph.AIMessage _ tcs) => length tcs
  | _, _ => 0
  end.

(** What a model invocation was given, relative to a history: the input
    the agent builds from that history followed by further messages.
    Other events are not constrained. *)
Definition given_history (self : LangGraph.Agent)
    (history : list LangGraph.message) (e : LangGraph.event) : Prop :=
  match e with
  | LangGraph.EvModelInvoke input =>
      ∃ more, input = LangGraph.model_input self
                        {| LangGraph.messages := app history more |}
  | _ => True
  end.

(** The inputs of the model invocations of a trace, in order. *)
Definition model_inputs (t : list LangGraph.event)
  : list (list LangGraph.message) :=
  omap (λ e, match e with
             | LangGraph.EvModelInvoke input => Some input
             | _ => None
             end) t.

(** The histories at which the assistant messages of [new] were produced,
    when [new] is appended to [history] message by message: for each
    assistant message of [new], [history] followed by the messages of
    [new] before it. *)
Fixpoint histories_at_replies (history new : list LangGraph.message)
  : list (list LangGraph.message) :=
  match new with
  | [] => []
  | m :: rest =>
      let later := histories_at_replies (app history [m]) rest in
      if is_assistant m then history :: later else later
  end.

End Measure.

(** ** The records the specification asks for

    A second description of the harness, written from the steps of the
    specification and not from the code: what the generation step ends
    with after its single retry, and the record of a case given what the
    helper and the chat API answer at the calls the case makes.  The
    evaluation loop is compared with it below. *)

Module Expected.

(** Whether call [k] of the helper raises. *)
Definition first_call_raised (sql_helper : nat → string → result exn pyval)
    (k : nat) (nlq : string) : bool :=
  match sql_helper k nlq with
  | Raise _ => true
  | Return _ => false
  end.

(** The generation step that starts at call [k]: the answer of that call
    or, when it raised, the outcome of the one retry. *)
Definition generation (sql_helper : nat → string → result exn pyval)
    (k : nat) (nlq : string) : result exn pyval :=
  if first_call_raised sql_helper k nlq then sql_helper (S k) nlq
  else sql_helper k nlq.

(** The verdict of the judge when its request is request [j] of the
    chat API. *)
Definition verdict
    (chat_api : nat → Utils.chat_request → result exn Utils.chat_response)
    (j : nat) (nlq expected generated : string) : string :=
  match chat_api j
          {| Utils.req_model := "gpt-4o";
             Utils.req_messages :=
               [("user", Utils.judge_prompt nlq expected generated)];
             Utils.req_temperature := 0 |}
  with
  | Return {| Utils.choices := Some content :: _ |} => PyStr.strip content
  | _ => "Error"
  end.

(** The record of a case that failed, with the captured error text. *)
Definition failure (case : Utils.test_case) (text : string)
  : Utils.eval_result :=
  {| Utils.res_question := Utils.question case;
     Utils.expected_sql := Utils.actual_query case;
     Utils.generated_sql := None;
     Utils.exact_match := false;
     Utils.llm_judged_equivalent := None;
     Utils.error := Some text |}.

(** The record of a case whose generation step starts at call [k] of the
    helper and whose judge, if asked, makes request [j] of the chat API.
    - Generation failed after its retry: a failure with the error's text.
    - The answer or its first element is absent or empty: a failure with
      the text ["Agent returned no SQL."].
    - The answer cannot be used as a sequence holding a string: a failure
      with the text of the error that this raises.
    - Otherwise a success: the generated SQL, the exact match after
      trimming and lower-casing, and the verdict of the judge unless the
      match is exact. *)
Definition record (sql_helper : nat → string → result exn pyval)
    (chat_api : nat → Utils.chat_request → result exn Utils.chat_response)
    (k j : nat) (case : Utils.test_case) : Utils.eval_result :=
  match generation sql_helper k (Utils.question case) with
  | Raise err => failure case (exn_str err)
  | Return answer =>
      if negb (Py.truthy answer) then failure case "Agent returned no SQL."
      else
        match Py.getitem0 answer with
        | Raise err => failure case (exn_str err)
        | Return first =>
            if negb (Py.truthy first)
            then failure case "Agent returned no SQL."
            else
              match first with
              | PyStr sql =>
                  let exact :=
                    String.eqb (PyStr.lower (PyStr.strip sql))
                      (PyStr.lower (PyStr.strip (Utils.actual_query case))) in
                  {| Utils.res_question := Utils.question case;
                     Utils.expected_sql := Utils.actual_query case;
                     Utils.generated_sql := Some sql;
                     Utils.exact_match := exact;
                     Utils.llm_judged_equivalent :=
                       if exact then None
                       else Some (verdict chat_api j (Utils.question case)
                                    (Utils.actual_query case) sql);
                     Utils.error := None |}
              | other =>
                  failure case (exn_str (Py.no_attribute other "strip"))
              end
        end
  end.

(** The calls of the helper and the requests to the chat API that a case
    makes. *)
Definition helper_calls (sql_helper : nat → string → result exn pyval)
    (k : nat) (case : Utils.test_case) : nat :=
  if first_call_raised sql_helper k (Utils.question case) then 2 else 1.

Definition chat_requests (r : Utils.eval_result) : nat :=
  if Measure.judged r then 1 else 0.

(** The records of a batch, each case starting where the one before it
    left the helper and the chat API. *)
Fixpoint records (sql_helper : nat → string → result exn pyval)
    (chat_api : nat → Utils.chat_request → result exn Utils.chat_response)
    (k j : nat) (cases : list Utils.test_case) : list Utils.eval_result :=
  match cases with
  | [] => []
  | case :: rest =>
      let r := record sql_helper chat_api k j case in
      r :: records sql_helper chat_api
             (k + helper_calls sql_helper k case) (j + chat_requests r) rest
  end.

(** The cases of a batch whose first call of the helper raises. *)
Fixpoint retried (sql_helper : nat → string → result exn pyval)
    (k : nat) (cases : list Utils.test_case) : list Utils.test_case :=
  match cases with
  | [] => []
  | case :: rest =>
      let later := retried sql_helper (k + helper_calls sql_helper k case) rest in
      if first_call_raised sql_helper k (Utils.question case)
      then case :: later else later
  end.

End Expected.

(** ** Further concrete collaborators *)

Module Cases.

(** A module directory and a file system with one script in [SQL_Files]
    and one file elsewhere. *)
Definition app_dir : string := "/srv/app".

Definition disk (path : string) : result exn (result exn string) :=
  if String.eqb path "/srv/app/SQL_Files/schema.sql"
  then Return (Return "CREATE TABLE doctors (id INTEGER, name TEXT);")
  else if String.eqb path "/tmp/drop.sql"
  then Return (Return "DROP TABLE doctors;")
  else Raise (Exn "FileNotFoundError" "No such file or directory").

Definition accepting_cursor : string → result exn unit := λ _, Return ().

Definition script_start : Script.world := {| Script.trace := [] |}.

(** A tool that raises. *)
Definition broken_tool : LangGraph.tool :=
  {| LangGraph.name := "run_query";
     LangGraph.invoke := λ _ _, Raise (Exn "OperationalError" "no such table") |}.

Definition call_run_query : LangGraph.tool_call :=
  {| LangGraph.tc_name := "run_query";
     LangGraph.tc_args := {[ "query" := PyStr "SELECT 1" ]};
     LangGraph.tc_id := "call_2" |}.

Definition toolbox : list LangGraph.tool :=
  [Scenario.list_tables; broken_tool].

Definition agent_with_toolbox : LangGraph.Agent :=
  LangGraph.init Scenario.planner toolbox "".

(** An agent whose model asks for a tool that was never registered. *)
Definition agent_without_tools : LangGraph.Agent :=
  LangGraph.init Scenario.planner [] "".

(** An agent whose model asks for a query to be run, with a tool for it
    that raises, and an empty conversation. *)
Definition asking_query : list LangGraph.tool → LangGraph.bound_model :=
  λ _ _ _, Return ("", [call_run_query]).

Definition agent_asking_query : LangGraph.Agent :=
  LangGraph.init asking_query toolbox "".

Definition nothing_said : LangGraph.AgentState :=
  {| LangGraph.messages := [] |}.

(** States whose last message asks for the tables and then for an
    unregistered tool, and for the tables and then for a tool that
    raises. *)
Definition wants_tables_then_description : LangGraph.AgentState :=
  {| LangGraph.messages :=
       [LangGraph.AIMessage ""
          [Scenario.call_list_tables; Scenario.call_describe_table;
           Scenario.call_list_tables]] |}.

Definition wants_tables_then_query : LangGraph.AgentState :=
  {| LangGraph.messages :=
       [LangGraph.AIMessage ""
          [Scenario.call_list_tables; call_run_query;
           Scenario.call_list_tables]] |}.

(** Helpers that answer with a bare string, with a number in a list, and
    with a number. *)
Definition bare_helper : nat → string → result exn pyval :=
  λ _ _, Return (PyStr "SELECT name FROM doctors;").

Definition numbers_helper : nat → string → result exn pyval :=
  λ _ _, Return (PyList [PyInt 7]).

Definition number_helper : nat → string → result exn pyval :=
  λ _ _, Return (PyInt 7).

(** An API that is down. *)
Definition down_api
  : nat → Utils.chat_request → result exn Utils.chat_response :=
  λ _ _, Raise (Exn "APIConnectionError" "Connection error.").

End Cases.

Local Open Scope list_scope.
Local Open Scope nat_scope.

(** * Properties *)

(** ** Facts on [strip] and [lower] *)

Section PyStrFacts.
Import PyStr.

Lemma isspace_lower_char c : isspace (lower_char c) = isspace c.
Proof. by destruct c as [[] [] [] [] [] [] [] []]. Qed.

Lemma lstrip_lower s : lstrip (lower s) = lower (lstrip s).
Proof.
  induction s as [|c s IH]; cbn; [done|].
  rewrite isspace_lower_char. by destruct (isspace c).
Qed.

Lemma rstrip_lower s : rstrip (lower s) = lower (rstrip s).
Proof.
  induction s as [|c s IH]; cbn; [done|].
  rewrite IH, isspace_lower_char.
  destruct (rstrip s); cbn; [by destruct (isspace c) | done].
Qed.

Lemma strip_lower s : strip (lower s) = lower (strip s).
Proof. unfold strip. by rewrite lstrip_lower, rstrip_lower. Qed.

Lemma lstrip_all_space s : all_space s = true → lstrip s = ""%string.
Proof.
  induction s as [|c s IH]; simpl; [done|].
  intros [Hc Hs]%andb_true_iff. rewrite Hc. by apply IH.
Qed.

Lemma rstrip_all_space s : all_space s = true → rstrip s = ""%string.
Proof.
  induction s as [|c s IH]; simpl; [done|].
  intros [Hc Hs]%andb_true_iff. by rewrite IH, Hc.
Qed.

Lemma lstrip_app s t :
  lstrip (s +:+ t) = if all_space s then lstrip t else lstrip s +:+ t.
Proof.
  induction s as [|c s IH]; simpl; [done|].
  by destruct (isspace c).
Qed.

Lemma rstrip_pad s r : all_space r = true → rstrip (s +:+ r) = rstrip s.
Proof.
  intros Hr. induction s as [|c s IH]; simpl.
  - by apply rstrip_all_space.
  - by rewrite IH.
Qed.

(** White space around a string does not survive [strip]. *)
Lemma strip_pad l s r :
  all_space l = true → all_space r = true →
  strip (l +:+ s +:+ r) = strip s.
Proof.
  intros Hl Hr. unfold strip.
  rewrite lstrip_app, Hl, lstrip_app.
  destruct (all_space s) eqn:Hs.
  - by rewrite !lstrip_all_space.
  - by rewrite rstrip_pad.
Qed.

(** Two strings that differ only in case and in surrounding white space
    are equal after [strip] and [lower]. *)
Lemma normalised_eq_case_padding l1 r1 l2 r2 a b :
  all_space l1 = true → all_space r1 = true →
  all_space l2 = true → all_space r2 = true →
  lower a = lower b →
  lower (strip (l1 +:+ a +:+ r1)) = lower (strip (l2 +:+ b +:+ r2)).
Proof.
  intros ???? Hab. rewrite !strip_pad by done.
  by rewrite <- !strip_lower, Hab.
Qed.

(** The example of the specification: the trailing semicolon keeps the
    two queries apart. *)
Example doctors_not_exact :
  String.eqb (lower (strip "select name from doctors"))
             (lower (strip "SELECT name FROM doctors;")) = false.
Proof. reflexivity. Qed.

Example doctors_case_and_padding :
  String.eqb (lower (strip "  select NAME from doctors;
"))
             (lower (strip "SELECT name FROM doctors;")) = true.
Proof. reflexivity. Qed.

End PyStrFacts.

(** ** The judge and the evaluation loop *)

(** Unfolds the monad and the primitive effects of [Utils]. *)
Ltac eff_unfold :=
  unfold Utils.chat_completions_create,
    Utils.get_sql, Utils.sleep, Utils.print, Utils.emit,
    try_except, lift, raise, mbind, M_bind, mret, M_ret in *.

#[local] Arguments PyStr.strip : simpl never.
#[local] Arguments PyStr.lower : simpl never.
#[local] Arguments String.eqb : simpl never.

Section UtilsFacts.
Import Utils.
Variable sql_helper : nat → string → result exn pyval.
Variable chat_api : nat → chat_request → result exn chat_response.

(** The judge always returns; it leaves one [EvJudge] event, followed by
    events of the API call and of [print] only. *)
Lemma judge_total nlq sql1 sql2 w :
  ∃ s w' evs,
    judge_sql_similarity chat_api nlq sql1 sql2 w = (Return s, w')
    ∧ get_sql_calls w' = get_sql_calls w
    ∧ trace w' = trace w ++ EvJudge nlq sql1 sql2 :: evs
    ∧ judge_calls evs = 0
    ∧ Forall (λ e, ∀ q, e ≠ EvGetSql q) evs.
Proof.
  unfold judge_sql_similarity. eff_unfold. cbn.
  destruct (chat_api _ _) as [[[|[c|] cs]]|e]; cbn;
    do 3 eexists; (split; [reflexivity|]); (split; [reflexivity|]); cbn;
    rewrite <- ?app_assoc; (split; [reflexivity|]);
    (split; [reflexivity|]); repeat constructor; discriminate.
Qed.

(** The three ways the body of the loop ends: a failure record, a success
    record with an exact match, a success record with a judgment.  In each
    of them the body returns and appends one record. *)
Lemma evaluate_case_cases case results w :
  ∃ r w' evs,
    evaluate_case sql_helper chat_api case results w
      = (Return (results ++ [r]), w')
    ∧ trace w' = trace w ++ evs
    ∧ res_question r = question case
    ∧ expected_sql r = actual_query case
    ∧ ((generated_sql r = None ∧ exact_match r = false
        ∧ llm_judged_equivalent r = None ∧ is_Some (error r)
        ∧ judge_calls evs = 0)
       ∨ (∃ sql, generated_sql r = Some sql ∧ error r = None
          ∧ ((exact_match r = true
              ∧ PyStr.lower (PyStr.strip sql)
                = PyStr.lower (PyStr.strip (actual_query case))
              ∧ llm_judged_equivalent r = None ∧ judge_calls evs = 0)
             ∨ (exact_match r = false
                ∧ PyStr.lower (PyStr.strip sql)
                  ≠ PyStr.lower (PyStr.strip (actual_query case))
                ∧ is_Some (llm_judged_equivalent r)
                ∧ judge_calls evs = 1)))).
Proof.
  unfold evaluate_case. eff_unfold. cbn.
  repeat (first [ match goal with
                  | |- context [String.eqb ?a ?b] => destruct (String.eqb_spec a b)
                  end
                | case_match ]; cbn in *; simplify_eq).
  all: try match goal with
    | H : judge_sql_similarity _ ?q ?e ?g ?w0 = (Raise _, _) |- _ =>
        destruct (judge_total q e g w0) as (? & ? & ? & Hj & _);
        rewrite Hj in H; discriminate H
    end.
  all: try match goal with
    | H : judge_sql_similarity _ ?q ?e ?g ?w0 = _ |- _ =>
        destruct (judge_total q e g w0) as (? & ? & ? & Hj & Hg & Ht & Hc & Hn);
        rewrite Hj in H; simplify_eq; simpl in Ht
    end.
  all: do 3 eexists; (split; [reflexivity|]); simpl;
    rewrite ?Ht, <- ?app_assoc; (split; [reflexivity|]);
    (split; [reflexivity|]); (split; [reflexivity|]); simpl.
  all: try (left; repeat split; eauto; fail).
  all: right; eexists; (split; [reflexivity|]); (split; [reflexivity|]).
  all: try (left; repeat split; eauto; fail).
  all: try (right; repeat split; eauto; unfold judge_calls in *; simpl;
            rewrite ?Hc; eauto; fail).
Qed.


(** C2.  When the generation step ends with a value whose first element
    is a non-empty string [sql], the record stores [sql], its
    [exact_match] is true exactly when [sql] and the reference SQL are
    equal after [strip()] and [lower()], and the judge is entered exactly
    when [exact_match] is false; the judgment is absent exactly when
    [exact_match] is true. *)
Theorem exact_match_decides_judge case results w v sql :
  generated sql_helper (get_sql_calls w) (question case) v →
  Py.truthy v = true →
  Py.getitem0 v = Return (PyStr sql) →
  sql ≠ ""%string →
  ∃ r w' evs,
    evaluate_case sql_helper chat_api case results w
      = (Return (results ++ [r]), w')
    ∧ trace w' = trace w ++ evs
    ∧ generated_sql r = Some sql
    ∧ (exact_match r = true ↔
       PyStr.lower (PyStr.strip sql)
         = PyStr.lower (PyStr.strip (actual_query case)))
    ∧ (0 < judge_calls evs ↔ exact_match r = false)
    ∧ (llm_judged_equivalent r = None ↔ exact_match r = true).
Proof.
  intros Hgen Htrue Hfirst Hne.
  unfold evaluate_case. eff_unfold. cbn.
  destruct Hgen as [H1 | [[err H1] H2]]; rewrite H1; cbn; rewrite ?H2; cbn.
  all: rewrite Htrue; cbn; rewrite Hfirst; cbn.
  all: apply String.eqb_neq in Hne; rewrite Hne; cbn.
  all: destruct (String.eqb_spec (PyStr.lower (PyStr.strip sql))
                  (PyStr.lower (PyStr.strip (actual_query case))))
         as [Heq|Hneq]; cbn.
  all: try match goal with
    | |- context [judge_sql_similarity _ ?q ?e ?g ?w0] =>
        destruct (judge_total q e g w0) as (? & ? & ? & Hj & Hg & Ht & Hc & Hn);
        rewrite Hj; simpl in Ht
    end.
  all: do 3 eexists; (split; [reflexivity|]); simpl;
    rewrite ?Ht, <- ?app_assoc; (split; [reflexivity|]);
    (split; [reflexivity|]); simpl.
  all: unfold judge_calls; simpl.
  all: repeat split; intros; try done; try lia.
Qed.

(** C3.  When the first call of [get_sql] raises, [evaluate] prints a
    notice, sleeps 4 and calls [get_sql] once more, and never a third
    time.  If the second call returns a value whose first element is a
    non-empty string, the record is a success record without an error
    field; if the second call raises too, the record has no generated
    SQL, [exact_match] false, no judgment and the text of the second
    exception as its error, and the loop goes on with the next case. *)
Theorem generation_retried_once case results w err1 :
  sql_helper (get_sql_calls w) (question case) = Raise err1 →
  (∀ v sql,
      sql_helper (S (get_sql_calls w)) (question case) = Return v →
      Py.truthy v = true →
      Py.getitem0 v = Return (PyStr sql) →
      sql ≠ ""%string →
      ∃ r w' evs,
        evaluate_case sql_helper chat_api case results w
          = (Return (results ++ [r]), w')
        ∧ trace w' = trace w ++
            [EvSleep 2; EvPrint (question case); EvGetSql (question case);
             EvPrint ("[evaluate] Error occurred: " +:+ exn_str err1 +:+
                    ". Sleeping 4s and retrying once...");
             EvSleep 4; EvGetSql (question case)] ++ evs
        ∧ Forall (λ e, ∀ q, e ≠ EvGetSql q) evs
        ∧ get_sql_calls w' = get_sql_calls w + 2
        ∧ generated_sql r = Some sql
        ∧ error r = None
        ∧ exact_match r =
            String.eqb (PyStr.lower (PyStr.strip sql))
                       (PyStr.lower (PyStr.strip (actual_query case))))
  ∧ (∀ err2 rest,
      sql_helper (S (get_sql_calls w)) (question case) = Raise err2 →
      ∃ w',
        evaluate_case sql_helper chat_api case results w
          = (Return (results ++
               [ {| res_question := question case;
                    expected_sql := actual_query case;
                    generated_sql := None;
                    exact_match := false;
                    llm_judged_equivalent := None;
                    error := Some (exn_str err2) |} ]), w')
        ∧ trace w' = trace w ++
            [EvSleep 2; EvPrint (question case); EvGetSql (question case);
             EvPrint ("[evaluate] Error occurred: " +:+ exn_str err1 +:+
                    ". Sleeping 4s and retrying once...");
             EvSleep 4; EvGetSql (question case);
             EvPrint ("[evaluate] Skipped due to error after retry: " +:+
                    exn_str err2)]
        ∧ get_sql_calls w' = get_sql_calls w + 2
        ∧ for_each (case :: rest) (evaluate_case sql_helper chat_api)
            results w
          = for_each rest (evaluate_case sql_helper chat_api)
              (results ++
               [ {| res_question := question case;
                    expected_sql := actual_query case;
                    generated_sql := None;
                    exact_match := false;
                    llm_judged_equivalent := None;
                    error := Some (exn_str err2) |} ]) w').
Proof.
  intros H1. split.
  - intros v sql H2 Htrue Hfirst Hne.
    unfold evaluate_case. eff_unfold. cbn. rewrite H1. cbn. rewrite H2. cbn.
    rewrite Htrue; cbn; rewrite Hfirst; cbn.
    apply String.eqb_neq in Hne; rewrite Hne; cbn.
    destruct (String.eqb (PyStr.lower (PyStr.strip sql))
                (PyStr.lower (PyStr.strip (actual_query case)))); cbn.
    all: try match goal with
      | |- context [judge_sql_similarity _ ?q ?e ?g ?w0] =>
          destruct (judge_total q e g w0) as (? & ? & ? & Hj & Hg & Ht & Hc & Hn);
          rewrite Hj; simpl in Ht, Hg
      end.
    all: do 3 eexists; (split; [reflexivity|]); simpl;
      rewrite ?Ht, <- ?app_assoc; simpl; (split; [reflexivity|]).
    all: rewrite ?Hg; repeat split; try done; try lia.
    constructor; [discriminate | exact Hn].
  - intros err2 rest H2. cbn [for_each].
    unfold evaluate_case. eff_unfold. cbn. rewrite H1. cbn. rewrite H2. cbn.
    eexists. split; [reflexivity|]. simpl. rewrite <- ?app_assoc. simpl.
    repeat split; try done; lia.
Qed.

(** C5.  When the generation step ends with a value that is falsy (absent
    or empty) or whose first element is falsy, the record of the case is
    the failure record with the error text ["Agent returned no SQL."]:
    no generated SQL, [exact_match] false, no judgment.  The judge is not
    entered and the chat API is not called for that case. *)
Theorem no_sql_recorded_as_failure case results w v :
  generated sql_helper (get_sql_calls w) (question case) v →
  Py.truthy v = false
  ∨ (∃ first, Py.getitem0 v = Return first ∧ Py.truthy first = false) →
  ∃ w' evs,
    evaluate_case sql_helper chat_api case results w
      = (Return (results ++
           [ {| res_question := question case;
                expected_sql := actual_query case;
                generated_sql := None;
                exact_match := false;
                llm_judged_equivalent := None;
                error := Some "Agent returned no SQL."%string |} ]), w')
    ∧ trace w' = trace w ++ evs
    ∧ judge_calls evs = 0
    ∧ chat_calls w' = chat_calls w
    ∧ last evs =
        Some (EvPrint "[evaluate] Skipped due to error after retry: Agent returned no SQL.").
Proof.
  intros Hgen Hno.
  unfold evaluate_case. eff_unfold. cbn.
  destruct Hgen as [H1 | [[err H1] H2]]; rewrite H1; cbn; rewrite ?H2; cbn.
  all: destruct (Py.truthy v) eqn:Htruthy; cbn;
    [ destruct Hno as [Hno | (first & Hfirst & Hfalsy)]; [done|];
      rewrite Hfirst; cbn; rewrite Hfalsy; cbn | ].
  all: do 2 eexists; (split; [reflexivity|]); simpl;
    rewrite <- ?app_assoc; (split; [reflexivity|]); done.
Qed.

(** What [judge_sql_similarity] returns, in closed form.  It never
    raises: when the call of the API raises, the response has no choice,
    or the first choice has no content, it returns ["Error"]; otherwise it
    returns the content of the first choice with its surrounding white
    space removed, unchecked. *)
Lemma judge_returns_error_or_trimmed_content nlq sql1 sql2 w :
  ∃ w',
    judge_sql_similarity chat_api nlq sql1 sql2 w
    = (Return
         match chat_api (chat_calls w)
                 {| req_model := "gpt-4o";
                    req_messages := [("user"%string, judge_prompt nlq sql1 sql2)];
                    req_temperature := 0 |}
         with
         | Return {| choices := Some content :: _ |} => PyStr.strip content
         | _ => "Error"%string
         end, w').
Proof.
  unfold judge_sql_similarity. eff_unfold. cbn.
  destruct (chat_api _ _) as [[[|[c|] cs]]|e]; cbn; eexists; reflexivity.
Qed.

(** C10.  [judge_sql_similarity] returns on every input and every
    behaviour of the API, so an [except] clause around a call of it is
    never entered, whatever its handler; in [evaluate] the judge is
    entered once for a case with generated SQL and no exact match, and
    not at all for any other case. *)
Theorem judge_retry_unreachable :
  (∀ nlq sql1 sql2 w, ∃ s w',
      judge_sql_similarity chat_api nlq sql1 sql2 w = (Return s, w'))
  ∧ (∀ nlq sql1 sql2 handler w,
      try_except (judge_sql_similarity chat_api nlq sql1 sql2) handler w
      = judge_sql_similarity chat_api nlq sql1 sql2 w)
  ∧ (∀ case results w, ∃ r w' evs,
      evaluate_case sql_helper chat_api case results w
        = (Return (results ++ [r]), w')
      ∧ trace w' = trace w ++ evs
      ∧ judge_calls evs =
          match generated_sql r with
          | Some _ => if exact_match r then 0 else 1
          | None => 0
          end).
Proof.
  split; [|split].
  - intros nlq sql1 sql2 w.
    destruct (judge_total nlq sql1 sql2 w) as (s & w' & _ & Hj & _).
    by exists s, w'.
  - intros nlq sql1 sql2 handler w. unfold try_except.
    destruct (judge_total nlq sql1 sql2 w) as (s & w' & _ & Hj & _).
    by rewrite Hj.
  - intros case results w.
    destruct (evaluate_case_cases case results w)
      as (r & w' & evs & Hrun & Ht & _ & _ & Hshape).
    exists r, w', evs. split; [exact Hrun|]. split; [exact Ht|].
    destruct Hshape as [(Hg & _ & _ & _ & Hc)
                       | (sql & Hg & _ & [(Hm & _ & _ & Hc) | (Hm & _ & _ & Hc)])];
      by rewrite Hg, ?Hm.
Qed.

End UtilsFacts.

(** ** The agent graph *)

(** Unfolds the monad and the primitive effects of [LangGraph]. *)
Ltac graph_unfold :=
  unfold LangGraph.call_openai, LangGraph.exists_action,
    LangGraph.model_invoke, LangGraph.tool_invoke,
    lift, raise, mbind, M_bind, mret, M_ret in *.

Section GraphFacts.
Import LangGraph.
Variable str : pyval → string.
Variable self : Agent.

(** A step only adds the node's update to the right of the history. *)
Lemma step_appends n state w next state' w' :
  step str self n state w = (Return (next, state'), w') →
  ∃ update, messages state' = messages state ++ update.
Proof.
  unfold step, mbind, M_bind, mret, M_ret.
  destruct (node_fn str self n state w) as [[update|e] w1]; [|done].
  destruct (next_node self n (operator_add state update) w1)
    as [[nxt|e] w2]; [|done].
  intros [= _ <- _]. by exists (messages update).
Qed.

(** A run that ends is a sequence of steps. *)
Lemma run_reaches fuel : ∀ n state w final w',
  run str fuel self n state w = (Return (Some final), w') →
  rtc (graph_step str self) (Some n, state, w) (None, final, w').
Proof.
  induction fuel as [|fuel IH]; intros n state w final w'; simpl.
  - intros [=].
  - unfold mbind, M_bind.
    destruct (step str self n state w) as [[[next st1]|e] w1] eqn:Hstep;
      [|done].
    destruct next as [n1|].
    + intros Hrun. eapply rtc_l; [by constructor|]. by apply IH.
    + intros [= <- <-]. eapply rtc_once. by constructor.
Qed.

(** Steps compose: what a sequence of steps adds is added on the right. *)
Lemma steps_append c c' :
  rtc (graph_step str self) c c' →
  ∃ new, config_messages c' = config_messages c ++ new.
Proof.
  induction 1 as [c | c1 c2 c3 Hstep _ [new2 IH]].
  - exists []. by rewrite app_nil_r.
  - destruct Hstep as [n state w next state' w' Hstep].
    destruct (step_appends _ _ _ _ _ _ Hstep) as [new1 Hnew1].
    exists (new1 ++ new2). unfold config_messages in *; simpl in *.
    by rewrite IH, Hnew1, app_assoc.
Qed.

(** The history returned by [graph.invoke] starts with the input. *)
Corollary graph_invoke_extends_input fuel input w final w' :
  graph_invoke str fuel self input w = (Return (Some final), w') →
  ∃ new, messages final = messages input ++ new.
Proof. intros Hrun%run_reaches. exact (steps_append _ _ Hrun). Qed.

(** C7.  The conversation is append-only along every run of the graph:
    from a configuration to any configuration reached from it by steps
    of the [llm] and [action] nodes, the later history is the earlier one
    followed by new messages, so its length does not decrease and every
    message stays at its position. *)
Theorem messages_append_only c c' :
  rtc (graph_step str self) c c' →
  (∃ new, config_messages c' = config_messages c ++ new)
  ∧ length (config_messages c) ≤ length (config_messages c')
  ∧ ∀ i m, config_messages c !! i = Some m →
           config_messages c' !! i = Some m.
Proof.
  intros [new Hnew]%steps_append.
  split; [by exists new|]. rewrite Hnew. split.
  - rewrite length_app. lia.
  - intros i m Hm. by apply lookup_app_l_Some.
Qed.

(** C8.  With a non-empty system prompt, [call_openai] invokes the model
    on the system message followed by the current history and returns
    the model's reply alone as its update.  The history stored after the
    [llm] step is the prior history followed by that one message: the
    step does not add the system message, which is in the stored history
    only if the prior history held it already. *)
Theorem call_openai_adds_only_reply state w content tcs :
  system self ≠ ""%string →
  model self (model_calls w) (SystemMessage (system self) :: messages state)
    = Return (content, tcs) →
  ∃ w' next,
    call_openai self state w
      = (Return {| messages := [AIMessage content tcs] |}, w')
    ∧ trace w' = trace w
        ++ [EvModelInvoke (SystemMessage (system self) :: messages state)]
    ∧ model_calls w' = S (model_calls w)
    ∧ step str self llm state w
      = (Return (next,
                 {| messages := messages state ++ [AIMessage content tcs] |}),
         w')
    ∧ (SystemMessage (system self)
         ∈ messages state ++ [AIMessage content tcs]
       ↔ SystemMessage (system self) ∈ messages state).
Proof.
  intros Hsys Hreply. apply String.eqb_neq in Hsys.
  unfold step, node_fn, next_node, model_input. graph_unfold.
  unfold model_input, operator_add, last_message. simpl.
  rewrite Hsys. simpl. rewrite Hreply. simpl. rewrite last_snoc. simpl.
  do 2 eexists. repeat split; try reflexivity.
  - intros [Hin | Hin%list_elem_of_singleton]%elem_of_app; done.
  - intros Hin. apply elem_of_app. by left.
Qed.

(** C9 (as amended).  A run starts at the [llm] node whatever the last
    message of its input is.  If the model's reply to the input carries
    no tool call, the run makes that one model call, appends that one
    message and returns, and no tool is invoked. *)
Theorem run_ends_after_reply_without_tool_calls input w fuel content :
  model self (model_calls w) (model_input self input) = Return (content, []) →
  ∃ w',
    graph_invoke str (S fuel) self input w
      = (Return (Some {| messages := messages input ++ [AIMessage content []] |}),
         w')
    ∧ model_calls w' = S (model_calls w)
    ∧ tool_invocations w' = tool_invocations w
    ∧ trace w' = trace w ++ [EvModelInvoke (model_input self input)].
Proof.
  intros Hreply.
  unfold graph_invoke, entry_point. simpl.
  unfold step, node_fn, next_node. graph_unfold.
  unfold operator_add, last_message. simpl.
  rewrite Hreply. simpl. rewrite last_snoc. simpl.
  eexists. repeat split; reflexivity.
Qed.

(** One iteration of the loop of [take_action], for a registered tool
    that returns. *)
Lemma run_tool_call_returns tc acc w tl v :
  tools self !! tc_name tc = Some tl →
  invoke tl (tool_invocations w) (tc_args tc) = Return v →
  run_tool_call str self tc acc w
  = (Return (acc ++ [ToolMessage (tc_id tc) (tc_name tc) (str v)]),
     {| model_calls := model_calls w;
        tool_invocations := S (tool_invocations w);
        trace := trace w ++ [EvToolInvoke (name tl) (tc_args tc)] |}).
Proof.
  intros Htl Hv. unfold run_tool_call. graph_unfold.
  rewrite Htl. simpl. by rewrite Hv.
Qed.

(** The loop of [take_action] appends one message per call, in order. *)
Lemma run_tool_calls tcs : ∀ acc w,
  (∀ i tc, tcs !! i = Some tc →
     ∃ tl v, tools self !! tc_name tc = Some tl
             ∧ invoke tl (tool_invocations w + i) (tc_args tc) = Return v) →
  ∃ new w',
    for_each tcs (run_tool_call str self) acc w = (Return (acc ++ new), w')
    ∧ length new = length tcs
    ∧ model_calls w' = model_calls w
    ∧ tool_invocations w' = tool_invocations w + length tcs
    ∧ ∀ i tc, tcs !! i = Some tc →
        ∃ tl v, tools self !! tc_name tc = Some tl
                ∧ invoke tl (tool_invocations w + i) (tc_args tc) = Return v
                ∧ new !! i
                  = Some (ToolMessage (tc_id tc) (tc_name tc) (str v)).
Proof.
  induction tcs as [|tc tcs IH]; intros acc w Hok.
  - exists [], w. rewrite app_nil_r. simpl. repeat split; try done; lia.
  - destruct (Hok 0 tc eq_refl) as (tl & v & Htl & Hv).
    rewrite Nat.add_0_r in Hv.
    set (w1 := {| model_calls := model_calls w;
                  tool_invocations := S (tool_invocations w);
                  trace := trace w ++ [EvToolInvoke (name tl) (tc_args tc)] |}).
    destruct (IH (acc ++ [ToolMessage (tc_id tc) (tc_name tc) (str v)]) w1)
      as (new & w' & Hrun & Hlen & Hmc & Hti & Hall).
    { intros i tc' Hi. destruct (Hok (S i) tc' Hi) as (tl' & v' & ? & Hv').
      exists tl', v'. split; [done|]. simpl.
      by replace (S (tool_invocations w + i))
        with (tool_invocations w + S i) by lia. }
    exists (ToolMessage (tc_id tc) (tc_name tc) (str v) :: new), w'.
    split; [|split; [|split; [|split]]].
    + cbn [for_each]. unfold mbind, M_bind.
      rewrite (run_tool_call_returns tc acc w tl v Htl Hv). fold w1.
      rewrite Hrun. by rewrite <- app_assoc.
    + simpl. by rewrite Hlen.
    + by rewrite Hmc.
    + rewrite Hti. simpl. lia.
    + intros [|i] tc' Hi; simpl in Hi.
      * injection Hi as <-. exists tl, v. by rewrite Nat.add_0_r.
      * destruct (Hall i tc' Hi) as (tl' & v' & ? & Hv' & ?).
        exists tl', v'. split; [done|]. split; [|done].
        simpl in Hv'.
        by replace (tool_invocations w + S i)
          with (S (tool_invocations w + i)) by lia.
Qed.

(** C4 (as amended).  When the last message of the state carries the tool
    calls [tcs], every call names a registered tool and every invocation
    returns, [take_action] returns exactly one tool-result message per
    call, in the order of the calls: the [i]-th message carries the
    identifier and the name of the [i]-th call and [str] of what the tool
    registered under that name returned on the call's arguments. *)
Theorem take_action_one_result_per_call state w content tcs :
  last (messages state) = Some (AIMessage content tcs) →
  (∀ i tc, tcs !! i = Some tc →
     ∃ tl v, tools self !! tc_name tc = Some tl
             ∧ invoke tl (tool_invocations w + i) (tc_args tc) = Return v) →
  ∃ results w',
    take_action str self state w = (Return {| messages := results |}, w')
    ∧ length results = length tcs
    ∧ tool_invocations w' = tool_invocations w + length tcs
    ∧ ∀ i tc, tcs !! i = Some tc →
        ∃ tl v, tools self !! tc_name tc = Some tl
                ∧ invoke tl (tool_invocations w + i) (tc_args tc) = Return v
                ∧ results !! i
                  = Some (ToolMessage (tc_id tc) (tc_name tc) (str v)).
Proof.
  intros Hlast Hok.
  destruct (run_tool_calls tcs [] w Hok)
    as (new & w' & Hrun & Hlen & _ & Hti & Hall).
  exists new, w'. split; [|done].
  unfold take_action, last_message. graph_unfold.
  rewrite Hlast. simpl. by rewrite Hrun.
Qed.

End GraphFacts.

(** ** The properties on concrete collaborators *)

Section OnScenarios.
Import Scenario.

(** The example of the specification: the answer lacks the semicolon, so
    there is no exact match and the judge is asked. *)
Example doctors_without_semicolon_is_judged :
  (Utils.evaluate steady_helper wordy_api [doctors] start).1
  = Return [ {| Utils.res_question := "List all doctor names";
                Utils.expected_sql := "SELECT name FROM doctors;";
                Utils.generated_sql := Some "select name from doctors"%string;
                Utils.exact_match := false;
                Utils.llm_judged_equivalent :=
                  Some "The queries are equivalent."%string;
                Utils.error := None |} ].
Proof. vm_compute. reflexivity. Qed.

(** An answer that differs from the reference in case and surrounding
    white space only: an exact match, and the judge is not entered. *)
Example doctors_in_capitals_is_exact :
  ∃ w',
    Utils.evaluate shouting_helper wordy_api [doctors] start
    = (Return [ {| Utils.res_question := "List all doctor names";
                   Utils.expected_sql := "SELECT name FROM doctors;";
                   Utils.generated_sql :=
                     Some "  SELECT NAME FROM DOCTORS;  "%string;
                   Utils.exact_match := true;
                   Utils.llm_judged_equivalent := None;
                   Utils.error := None |} ], w')
    ∧ Utils.judge_calls (Utils.trace w') = 0.
Proof. eexists. split; vm_compute; reflexivity. Qed.

Lemma exact_match_decides_judge_witness :
  ∃ r w' evs,
    Utils.evaluate_case steady_helper wordy_api doctors [] start
      = (Return ([] ++ [r]), w')
    ∧ Utils.trace w' = Utils.trace start ++ evs
    ∧ Utils.generated_sql r = Some "select name from doctors"%string
    ∧ (Utils.exact_match r = true ↔
       PyStr.lower (PyStr.strip "select name from doctors")
         = PyStr.lower (PyStr.strip (Utils.actual_query doctors)))
    ∧ (0 < Utils.judge_calls evs ↔ Utils.exact_match r = false)
    ∧ (Utils.llm_judged_equivalent r = None ↔ Utils.exact_match r = true).
Proof.
  apply (exact_match_decides_judge steady_helper wordy_api doctors [] start
           (PyList [PyStr "select name from doctors"])).
  - left. reflexivity.
  - reflexivity.
  - reflexivity.
  - discriminate.
Defined.

Lemma generation_retried_once_witness :
  (∃ r w' evs,
      Utils.evaluate_case flaky_helper wordy_api doctors [] start
        = (Return ([] ++ [r]), w')
      ∧ Utils.trace w' = Utils.trace start ++
          [Utils.EvSleep 2; Utils.EvPrint (Utils.question doctors);
           Utils.EvGetSql (Utils.question doctors);
           Utils.EvPrint ("[evaluate] Error occurred: " +:+ "timed out" +:+
                        ". Sleeping 4s and retrying once...");
           Utils.EvSleep 4; Utils.EvGetSql (Utils.question doctors)] ++ evs
      ∧ Forall (λ e, ∀ q, e ≠ Utils.EvGetSql q) evs
      ∧ Utils.get_sql_calls w' = Utils.get_sql_calls start + 2
      ∧ Utils.generated_sql r = Some "select name from doctors"%string
      ∧ Utils.error r = None
      ∧ Utils.exact_match r =
          String.eqb (PyStr.lower (PyStr.strip "select name from doctors"))
            (PyStr.lower (PyStr.strip (Utils.actual_query doctors))))
  ∧ (∃ w',
      Utils.evaluate_case down_helper wordy_api doctors [] start
        = (Return ([] ++
             [ {| Utils.res_question := Utils.question doctors;
                  Utils.expected_sql := Utils.actual_query doctors;
                  Utils.generated_sql := None;
                  Utils.exact_match := false;
                  Utils.llm_judged_equivalent := None;
                  Utils.error := Some "connection refused"%string |} ]), w')
      ∧ Utils.get_sql_calls w' = 2).
Proof.
  split.
  - apply (proj1 (generation_retried_once flaky_helper wordy_api doctors []
                    start (Exn "TimeoutError" "timed out") eq_refl)
             (PyList [PyStr "select name from doctors"])).
    + reflexivity.
    + reflexivity.
    + reflexivity.
    + discriminate.
  - destruct (proj2 (generation_retried_once down_helper wordy_api doctors []
                       start (Exn "ConnectionError" "connection refused")
                       eq_refl)
                (Exn "ConnectionError" "connection refused") [] eq_refl)
      as (w' & Hrun & _ & Hcalls & _).
    exists w'. split; [exact Hrun | exact Hcalls].
Defined.

Lemma no_sql_recorded_as_failure_witness :
  ∃ w' evs,
    Utils.evaluate_case silent_helper wordy_api doctors [] start
      = (Return ([] ++
           [ {| Utils.res_question := Utils.question doctors;
                Utils.expected_sql := Utils.actual_query doctors;
                Utils.generated_sql := None;
                Utils.exact_match := false;
                Utils.llm_judged_equivalent := None;
                Utils.error := Some "Agent returned no SQL."%string |} ]), w')
    ∧ Utils.trace w' = Utils.trace start ++ evs
    ∧ Utils.judge_calls evs = 0
    ∧ Utils.chat_calls w' = Utils.chat_calls start
    ∧ last evs =
        Some (Utils.EvPrint "[evaluate] Skipped due to error after retry: Agent returned no SQL.").
Proof.
  apply (no_sql_recorded_as_failure silent_helper wordy_api doctors [] start
           (PyList [PyStr ""])).
  - left. reflexivity.
  - right. exists (PyStr ""). split; reflexivity.
Defined.

(** C6.  The docstring of [judge_sql_similarity] promises one of
    ["Equivalent"], ["Not Equivalent"] and ["Error"].  At this input the
    code breaks the promise: the API answers in a sentence of its own and
    the function returns that sentence, stripped and unchecked, which is
    none of the three. *)
Lemma judge_returns_other_text :
  ∃ w', Utils.judge_sql_similarity wordy_api "List all doctor names"
          "SELECT name FROM doctors;" "select name from doctors" start
        = (Return "The queries are equivalent."%string, w')
  ∧ "The queries are equivalent."%string ≠ "Equivalent"%string
  ∧ "The queries are equivalent."%string ≠ "Not Equivalent"%string
  ∧ "The queries are equivalent."%string ≠ "Error"%string.
Proof. eexists. repeat split; try discriminate. vm_compute. reflexivity. Qed.

(** C9, counterexample.  The conversation ends with an assistant message
    without tool calls, and yet the run on it calls the model twice,
    invokes a tool and appends three messages. *)
Lemma run_on_answered_conversation_uses_tools :
  last (LangGraph.messages answered)
    = Some (LangGraph.AIMessage "SELECT name FROM doctors" [])
  ∧ ∃ final w',
      LangGraph.graph_invoke str_of 3 agent answered fresh
        = (Return (Some final), w')
      ∧ LangGraph.model_calls w' = 2
      ∧ LangGraph.tool_invocations w' = 1
      ∧ length (LangGraph.messages final)
        = length (LangGraph.messages answered) + 3.
Proof.
  split; [reflexivity|]. do 2 eexists.
  split; [vm_compute; reflexivity|]. repeat split.
Qed.

(** C4, counterexample.  The last message carries one tool call, for a
    tool that is not registered: [take_action] raises [KeyError] and
    returns no message. *)
Lemma take_action_unknown_tool_raises :
  last (LangGraph.messages wants_description)
    = Some (LangGraph.AIMessage "" [call_describe_table])
  ∧ LangGraph.take_action str_of agent wants_description fresh
    = (Raise (LangGraph.KeyError "describe_table"), fresh).
Proof. split; [reflexivity | vm_compute; reflexivity]. Qed.

Lemma take_action_one_result_per_call_witness :
  ∃ results w',
    LangGraph.take_action str_of agent wants_tables fresh
      = (Return {| LangGraph.messages := results |}, w')
    ∧ length results = length [call_list_tables]
    ∧ LangGraph.tool_invocations w'
      = LangGraph.tool_invocations fresh + length [call_list_tables]
    ∧ ∀ i tc, [call_list_tables] !! i = Some tc →
        ∃ tl v, LangGraph.tools agent !! LangGraph.tc_name tc = Some tl
                ∧ LangGraph.invoke tl (LangGraph.tool_invocations fresh + i)
                    (LangGraph.tc_args tc) = Return v
                ∧ results !! i
                  = Some (LangGraph.ToolMessage (LangGraph.tc_id tc)
                            (LangGraph.tc_name tc) (str_of v)).
Proof.
  apply (take_action_one_result_per_call str_of agent wants_tables fresh ""
           [call_list_tables]).
  - reflexivity.
  - intros [|i] tc Hi; [|discriminate Hi].
    injection Hi as <-. exists list_tables, (PyStr "doctors, appointments").
    split; [vm_compute; reflexivity | reflexivity].
Defined.

Lemma messages_append_only_witness :
  (∃ new, LangGraph.messages after_tools = LangGraph.messages asked ++ new)
  ∧ length (LangGraph.messages asked) ≤ length (LangGraph.messages after_tools)
  ∧ ∀ i m, LangGraph.messages asked !! i = Some m →
           LangGraph.messages after_tools !! i = Some m.
Proof.
  apply (messages_append_only str_of agent
           (Some LangGraph.llm, asked, fresh) (None, after_tools, spent)).
  apply (run_reaches str_of agent 3). vm_compute. reflexivity.
Defined.

Lemma call_openai_adds_only_reply_witness :
  ∃ w' next,
    LangGraph.call_openai agent asked fresh
      = (Return {| LangGraph.messages :=
                     [LangGraph.AIMessage "" [call_list_tables]] |}, w')
    ∧ LangGraph.trace w' = LangGraph.trace fresh
        ++ [LangGraph.EvModelInvoke
              (LangGraph.SystemMessage (LangGraph.system agent)
                 :: LangGraph.messages asked)]
    ∧ LangGraph.model_calls w' = S (LangGraph.model_calls fresh)
    ∧ LangGraph.step str_of agent LangGraph.llm asked fresh
      = (Return (next,
                 {| LangGraph.messages :=
                      LangGraph.messages asked
                      ++ [LangGraph.AIMessage "" [call_list_tables]] |}),
         w')
    ∧ (LangGraph.SystemMessage (LangGraph.system agent)
         ∈ LangGraph.messages asked
            ++ [LangGraph.AIMessage "" [call_list_tables]]
       ↔ LangGraph.SystemMessage (LangGraph.system agent)
           ∈ LangGraph.messages asked).
Proof.
  apply (call_openai_adds_only_reply str_of agent asked fresh ""
           [call_list_tables]).
  - discriminate.
  - reflexivity.
Defined.

Lemma run_ends_after_reply_without_tool_calls_witness :
  ∃ w',
    LangGraph.graph_invoke str_of 1 agent answered
      {| LangGraph.model_calls := 1; LangGraph.tool_invocations := 1;
         LangGraph.trace := [] |}
      = (Return (Some {| LangGraph.messages :=
                           LangGraph.messages answered
                           ++ [LangGraph.AIMessage
                                 "SELECT name FROM doctors" []] |}), w')
    ∧ LangGraph.model_calls w' = 2
    ∧ LangGraph.tool_invocations w' = 1
    ∧ LangGraph.trace w'
      = [] ++ [LangGraph.EvModelInvoke (LangGraph.model_input agent answered)].
Proof.
  apply (run_ends_after_reply_without_tool_calls str_of agent answered
           {| LangGraph.model_calls := 1; LangGraph.tool_invocations := 1;
              LangGraph.trace := [] |} 0 "SELECT name FROM doctors").
  reflexivity.
Defined.

End OnScenarios.

(** * Further properties of the code *)

(** ** Running a SQL script file *)

Section ScriptFacts.
Import Script.
Variable module_dir : string.
Variable open_read : string → result exn (result exn string).

Lemma string_app_assoc (a b c : string) : (a +:+ b) +:+ c = a +:+ (b +:+ c).
Proof.
  induction a as [|x a IH]; [done|].
  change (String x ((a +:+ b) +:+ c) = String x (a +:+ (b +:+ c))).
  by rewrite IH.
Qed.

Lemma string_app_nonempty_r (a b : string) :
  b ≠ ""%string → a +:+ b ≠ ""%string.
Proof.
  destruct a as [|x a]; [done|].
  change (String x a +:+ b) with (String x (a +:+ b)). discriminate.
Qed.

Lemma endswith_sep_app a b :
  b ≠ ""%string → endswith_sep (a +:+ b) = endswith_sep b.
Proof.
  intros Hb. induction a as [|c a IH]; [done|].
  change (String c a +:+ b) with (String c (a +:+ b)).
  pose proof (string_app_nonempty_r a b Hb) as Hab.
  destruct (a +:+ b) as [|c' s']; [done | exact IH].
Qed.

(** Where the script is looked for when its path is relative: in
    [SQL_Files] under the directory of the module. *)
Lemma path_join_relative p :
  module_dir ≠ ""%string →
  endswith_sep module_dir = false →
  startswith_sep p = false →
  path_join module_dir ["SQL_Files"%string; p]
  = module_dir +:+ "/SQL_Files/" +:+ p.
Proof.
  intros Hne Hend Hrel. apply String.eqb_neq in Hne.
  unfold path_join. cbn [foldl]. unfold join_step at 2. cbn [startswith_sep].
  rewrite Hne, Hend. cbn. unfold join_step. rewrite Hrel.
  change ("/" +:+ "SQL_Files")%string with "/SQL_Files"%string.
  replace (String.eqb (module_dir +:+ "/SQL_Files") "") with false.
  2:{ symmetry. apply String.eqb_neq. by apply string_app_nonempty_r. }
  rewrite (endswith_sep_app module_dir "/SQL_Files") by done. cbn.
  by rewrite string_app_assoc.
Qed.

(** X1.  For a relative script path and a module directory that is not
    the root, [execute_sql_script] opens the file of that path under
    [SQL_Files] in the module directory and nothing else.  If the file
    cannot be opened or read the exception reaches the caller and the
    cursor is not used; otherwise the whole text is handed to
    [executescript] once, after the file is closed, and the outcome of the
    cursor is the outcome of the call. *)
Theorem execute_sql_script_relative cursor p w :
  module_dir ≠ ""%string →
  endswith_sep module_dir = false →
  startswith_sep p = false →
  execute_sql_script module_dir open_read cursor p w
  = let file := module_dir +:+ "/SQL_Files/" +:+ p in
    match open_read file with
    | Raise e => (Raise e, {| trace := trace w ++ [EvOpen file] |})
    | Return (Raise e) =>
        (Raise e, {| trace := trace w ++ [EvOpen file; EvRead; EvClose] |})
    | Return (Return script) =>
        (cursor script,
         {| trace := trace w ++ [EvOpen file; EvRead; EvClose;
                                 EvExecuteScript script] |})
    end.
Proof.
  intros Hne Hend Hrel. unfold execute_sql_script.
  rewrite (path_join_relative p Hne Hend Hrel).
  unfold read_text, emit, lift, mbind, M_bind. simpl.
  destruct (open_read _) as [[script|e]|e]; simpl;
    by rewrite <- ?app_assoc.
Qed.

(** X2.  A script path that starts with [/] replaces the directory: the
    file opened is the one of that very path, outside [SQL_Files], and
    its text is what the cursor runs. *)
Theorem execute_sql_script_absolute cursor p w script :
  startswith_sep p = true →
  open_read p = Return (Return script) →
  execute_sql_script module_dir open_read cursor p w
  = (cursor script,
     {| trace := trace w ++ [EvOpen p; EvRead; EvClose;
                             EvExecuteScript script] |}).
Proof.
  intros Habs Hfile. unfold execute_sql_script, path_join. simpl.
  unfold join_step at 1. rewrite Habs.
  unfold read_text, emit, lift, mbind, M_bind. simpl. rewrite Hfile. simpl.
  by rewrite <- ?app_assoc.
Qed.

(** X3.  Whatever the path, [execute_sql_script] uses the cursor at most
    once, and only on the complete text of a file it has read and closed:
    when it raises without an [EvExecuteScript] event, the exception is
    the one of [open] or of [read]. *)
Theorem execute_sql_script_runs_what_it_read cursor p w :
  ∃ evs,
    (execute_sql_script module_dir open_read cursor p w).2
      = {| trace := trace w ++ evs |}
    ∧ let file := path_join module_dir ["SQL_Files"%string; p] in
      match List.filter is_execute evs with
      | [] => ∃ e, (execute_sql_script module_dir open_read cursor p w).1
                   = Raise e
                   ∧ (open_read file = Raise e
                      ∨ open_read file = Return (Raise e))
      | [EvExecuteScript script] =>
          open_read file = Return (Return script)
          ∧ (execute_sql_script module_dir open_read cursor p w).1
            = cursor script
          ∧ last evs = Some (EvExecuteScript script)
      | _ => False
      end.
Proof.
  unfold execute_sql_script, read_text, emit, lift, mbind, M_bind. simpl.
  destruct (open_read _) as [[script|e]|e] eqn:Hfile; simpl;
    eexists; rewrite <- ?app_assoc; (split; [reflexivity|]); simpl; eauto.
Qed.

End ScriptFacts.

(** ** Loops in the monad *)

Section LoopFacts.
Context {E W X A : Type}.

(** A loop over a concatenation is the loop over the first part followed,
    unless that raised, by the loop over the second part. *)
Lemma for_each_app (xs ys : list X) (body : X → A → M E W A) (acc : A) (w : W) :
  for_each (xs ++ ys) body acc w
  = match for_each xs body acc w with
    | (Return acc', w') => for_each ys body acc' w'
    | (Raise e, w') => (Raise e, w')
    end.
Proof.
  revert acc w. induction xs as [|x xs IH]; intros acc w; [done|].
  simpl. unfold mbind, M_bind.
  destruct (body x acc w) as [[acc'|e] w1]; [apply IH | done].
Qed.

End LoopFacts.

(** ** The tool registry and the nodes of the graph *)

Section RegistryFacts.
Import LangGraph.

(** Looking a name up in the registry built by [__init__]. *)
Lemma registry_lookup model (ts : list tool) sys n :
  tools (init model ts sys) !! n = last (filter (λ t, name t = n) ts).
Proof.
  unfold init. simpl.
  induction ts as [|t ts IH] using rev_ind; [done|].
  rewrite foldl_app, filter_app. simpl.
  destruct (decide (name t = n)) as [<-|Hne].
  - rewrite lookup_insert_eq, filter_cons_True by done.
    by rewrite filter_nil, last_snoc.
  - rewrite lookup_insert_ne, filter_cons_False by done.
    by rewrite filter_nil, app_nil_r.
Qed.

(** X4.  The registry built by [__init__] maps a name to the last tool of
    the list that carries it: a later tool replaces an earlier one of the
    same name, and a name that no tool carries is not registered. *)
Theorem init_registers_last model (ts : list tool) sys n :
  tools (init model ts sys) !! n = last (filter (λ t, name t = n) ts)
  ∧ (tools (init model ts sys) !! n = None ↔ n ∉ name <$> ts).
Proof.
  split; [apply registry_lookup|]. rewrite registry_lookup. split.
  - intros Hnone [t [-> Hin]]%list_elem_of_fmap.
    assert (t ∈ filter (λ t0, name t0 = name t) ts) as Hf
      by by apply list_elem_of_filter.
    destruct (filter _ ts) as [|t0 l _] using rev_ind;
      [by apply elem_of_nil in Hf | by rewrite last_snoc in Hnone].
  - intros Hnot.
    destruct (filter (λ t, name t = n) ts) as [|t0 l] eqn:Hf; [done|].
    assert (t0 ∈ filter (λ t, name t = n) ts)
      as [<- Hin]%list_elem_of_filter by (rewrite Hf; left).
    destruct Hnot. by apply list_elem_of_fmap_2.
Qed.

(** X5.  When the names of the tools are pairwise distinct, every tool of
    the list is registered under its own name. *)
Theorem init_registers_each_tool model (ts : list tool) sys t :
  NoDup (name <$> ts) →
  t ∈ ts →
  tools (init model ts sys) !! name t = Some t.
Proof.
  intros Hnodup Hin. rewrite registry_lookup.
  induction ts as [|t' ts IH]; [by apply elem_of_nil in Hin|].
  apply NoDup_cons in Hnodup as [Hfresh Hnodup].
  apply elem_of_cons in Hin as [->|Hin].
  - rewrite filter_cons_True by done.
    destruct (filter (λ t0, name t0 = name t') ts) as [|t0 l] eqn:Hf; [done|].
    assert (t0 ∈ filter (λ t0, name t0 = name t') ts)
      as [Heq Hin0]%list_elem_of_filter by (rewrite Hf; left).
    exfalso. apply Hfresh. rewrite <- Heq. by apply list_elem_of_fmap_2.
  - rewrite filter_cons_False.
    + by apply IH.
    + intros Heq. apply Hfresh. rewrite Heq. by apply list_elem_of_fmap_2.
Qed.

End RegistryFacts.

Section NodeFacts.
Import LangGraph.
Variable str : pyval → string.
Variable self : Agent.

(** What one iteration of the loop of [take_action] can do. *)
Lemma run_tool_call_cases tc acc w :
  ∃ w' evs,
    model_calls w' = model_calls w
    ∧ trace w' = trace w ++ evs
    ∧ Forall (λ e, ∀ inp, e ≠ EvModelInvoke inp) evs
    ∧ ((∃ v, run_tool_call str self tc acc w
             = (Return (acc ++ [ToolMessage (tc_id tc) (tc_name tc) (str v)]),
                w')
             ∧ tool_invocations w' = S (tool_invocations w))
       ∨ (run_tool_call str self tc acc w = (Raise (KeyError (tc_name tc)), w')
          ∧ tools self !! tc_name tc = None ∧ w' = w)
       ∨ (∃ e, run_tool_call str self tc acc w = (Raise (Raised e), w')
               ∧ tool_invocations w' = S (tool_invocations w))).
Proof.
  unfold run_tool_call. graph_unfold.
  destruct (tools self !! tc_name tc) as [tl|] eqn:Htl; simpl.
  - exists {| model_calls := model_calls w;
              tool_invocations := S (tool_invocations w);
              trace := trace w ++ [EvToolInvoke (name tl) (tc_args tc)] |},
           [EvToolInvoke (name tl) (tc_args tc)].
    split; [done|]. split; [done|]. split; [by repeat constructor|].
    destruct (invoke tl _ _) as [v|e]; simpl; eauto 6.
  - exists w, []. rewrite app_nil_r. repeat split; eauto.
Qed.

(** The loop of [take_action], read from its outcome. *)
Lemma run_tool_calls_cases tcs : ∀ acc w,
  ∃ r w' evs,
    for_each tcs (run_tool_call str self) acc w = (r, w')
    ∧ model_calls w' = model_calls w
    ∧ tool_invocations w ≤ tool_invocations w'
        ≤ tool_invocations w + length tcs
    ∧ trace w' = trace w ++ evs
    ∧ Forall (λ e, ∀ inp, e ≠ EvModelInvoke inp) evs
    ∧ match r with
      | Return res =>
          ∃ new, res = acc ++ new
                 ∧ Measure.answers <$> new
                   = (λ tc, Some (tc_id tc, tc_name tc)) <$> tcs
                 ∧ tool_invocations w' = tool_invocations w + length tcs
      | Raise err => (∃ key, err = KeyError key) ∨ (∃ e, err = Raised e)
      end.
Proof.
  induction tcs as [|tc tcs IH]; intros acc w.
  - exists (Return acc), w, []. simpl. rewrite app_nil_r.
    repeat split; try done; try lia. exists []. by rewrite app_nil_r.
  - simpl. unfold mbind, M_bind.
    destruct (run_tool_call_cases tc acc w)
      as (w1 & evs1 & Hm1 & Htr1 & Hev1
          & [(v & -> & Ht1) | [(-> & _ & ->) | (e & -> & Ht1)]]).
    + destruct (IH (acc ++ [ToolMessage (tc_id tc) (tc_name tc) (str v)]) w1)
        as (r & w' & evs & -> & Hm & Ht & Htr & Hev & Hr).
      exists r, w', (evs1 ++ evs). split; [done|]. split; [congruence|].
      split; [lia|]. split; [by rewrite Htr, Htr1, app_assoc|].
      split; [by apply Forall_app|].
      destruct r as [res|err]; [|done].
      destruct Hr as (new & -> & Hans & Hti).
      exists (ToolMessage (tc_id tc) (tc_name tc) (str v) :: new).
      split; [by rewrite <- app_assoc|]. split.
      * rewrite !fmap_cons. by rewrite Hans.
      * lia.
    + exists (Raise (KeyError (tc_name tc))), w, []. rewrite app_nil_r.
      repeat split; eauto; lia.
    + exists (Raise (Raised e)), w1, evs1.
      repeat split; eauto; lia.
Qed.

(** X6.  Whenever [take_action] returns, the last message of the state
    is an assistant message and the update answers its tool calls one by
    one, in their order: the [i]-th message of the update carries the
    identifier and the name of the [i]-th call.  Each call costs one tool
    invocation and the model is not called. *)
Theorem take_action_answers_every_call state w update w' :
  take_action str self state w = (Return update, w') →
  ∃ content tcs,
    last (messages state) = Some (AIMessage content tcs)
    ∧ Measure.answers <$> messages update
      = (λ tc, Some (tc_id tc, tc_name tc)) <$> tcs
    ∧ tool_invocations w' = tool_invocations w + length tcs
    ∧ model_calls w' = model_calls w.
Proof.
  unfold take_action, last_message. graph_unfold.
  destruct (last (messages state)) as [[| |content tcs|]|]; simpl; try done.
  destruct (run_tool_calls_cases tcs [] w)
    as (r & w1 & evs & -> & Hm & _ & _ & _ & Hr).
  destruct r as [res|err]; [|done].
  destruct Hr as (new & -> & Hans & Hti).
  intros [= <- <-]. by exists content, tcs.
Qed.

(** X7.  [take_action] stops at the first tool call that names no
    registered tool.  The tools of the calls before it have been invoked,
    but their results are dropped with the [KeyError]; the calls after it
    are not looked at. *)
Theorem take_action_stops_at_unknown_tool state w content before tc after :
  last (messages state) = Some (AIMessage content (before ++ tc :: after)) →
  (∀ i tc', before !! i = Some tc' →
     ∃ tl v, tools self !! tc_name tc' = Some tl
             ∧ invoke tl (tool_invocations w + i) (tc_args tc') = Return v) →
  tools self !! tc_name tc = None →
  ∃ w',
    take_action str self state w = (Raise (KeyError (tc_name tc)), w')
    ∧ tool_invocations w' = tool_invocations w + length before
    ∧ model_calls w' = model_calls w.
Proof.
  intros Hlast Hok Hnone.
  destruct (run_tool_calls str self before [] w Hok)
    as (new & w1 & Hrun & _ & Hm & Hti & _).
  exists w1. split; [|done].
  unfold take_action, last_message. graph_unfold. rewrite Hlast. simpl.
  rewrite for_each_app, Hrun. simpl. unfold mbind, M_bind.
  unfold run_tool_call at 1. graph_unfold. by rewrite Hnone.
Qed.

(** X8.  [take_action] does not catch what a tool raises: the exception
    ends the node at that call, after the tools of the earlier calls and
    the failing tool itself have been invoked, and no message is
    returned. *)
Theorem take_action_propagates_tool_error state w content before tc after tl e :
  last (messages state) = Some (AIMessage content (before ++ tc :: after)) →
  (∀ i tc', before !! i = Some tc' →
     ∃ tl' v, tools self !! tc_name tc' = Some tl'
              ∧ invoke tl' (tool_invocations w + i) (tc_args tc') = Return v) →
  tools self !! tc_name tc = Some tl →
  invoke tl (tool_invocations w + length before) (tc_args tc) = Raise e →
  ∃ w',
    take_action str self state w = (Raise (Raised e), w')
    ∧ tool_invocations w' = tool_invocations w + length before + 1
    ∧ model_calls w' = model_calls w.
Proof.
  intros Hlast Hok Htl He.
  destruct (run_tool_calls str self before [] w Hok)
    as (new & w1 & Hrun & _ & Hm & Hti & _).
  eexists. split.
  - unfold take_action, last_message. graph_unfold. rewrite Hlast. simpl.
    rewrite for_each_app, Hrun. simpl. unfold mbind, M_bind.
    unfold run_tool_call at 1. graph_unfold. rewrite Htl. simpl.
    rewrite Hti, He. reflexivity.
  - simpl. split; [lia | done].
Qed.

End NodeFacts.

(** ** Runs of the graph *)

Section RunFacts.
Import LangGraph.
Variable str : pyval → string.
Variable self : Agent.

(** The [llm] step in closed form. *)
Lemma step_llm_eq state w :
  step str self llm state w
  = let w' := {| model_calls := S (model_calls w);
                 tool_invocations := tool_invocations w;
                 trace := trace w ++ [EvModelInvoke (model_input self state)] |} in
    match model self (model_calls w) (model_input self state) with
    | Return (content, tcs) =>
        (Return (if 0 <? length tcs then Some action else None,
                 {| messages := messages state ++ [AIMessage content tcs] |}),
         w')
    | Raise e => (Raise (Raised e), w')
    end.
Proof.
  unfold step, node_fn, next_node. graph_unfold.
  unfold operator_add, last_message. simpl.
  destruct (model self _ _) as [[content tcs]|e]; simpl; [|done].
  by rewrite last_snoc.
Qed.

(** Messages that answer tool calls are tool-result messages, as many as
    the calls. *)
Lemma answers_tool_results (new : list message) (tcs : list tool_call) :
  Measure.answers <$> new = (λ tc, Some (tc_id tc, tc_name tc)) <$> tcs →
  Forall (λ m, Measure.is_tool_result m = true) new
  ∧ length new = length tcs.
Proof.
  revert tcs. induction new as [|m new IH]; intros [|tc tcs]; try done.
  rewrite !fmap_cons. intros [= Hm Hrest].
  destruct (IH tcs Hrest) as [Hall Hlen]. split.
  - constructor; [by destruct m | done].
  - simpl. by rewrite Hlen.
Qed.

(** The [action] step, read from its outcome. *)
Lemma step_action_cases state w content tcs :
  last (messages state) = Some (AIMessage content tcs) →
  ∃ r w' evs,
    step str self action state w = (r, w')
    ∧ model_calls w' = model_calls w
    ∧ trace w' = trace w ++ evs
    ∧ Forall (λ e, ∀ inp, e ≠ EvModelInvoke inp) evs
    ∧ match r with
      | Return (next, state') =>
          next = Some llm
          ∧ ∃ new, messages state' = messages state ++ new
                   ∧ Forall (λ m, Measure.is_tool_result m = true) new
                   ∧ length new = length tcs
                   ∧ tool_invocations w' = tool_invocations w + length new
      | Raise err => (∃ key, err = KeyError key) ∨ (∃ e, err = Raised e)
      end.
Proof.
  intros Hlast.
  unfold step, node_fn, next_node, take_action, last_message. graph_unfold.
  rewrite Hlast. simpl.
  destruct (run_tool_calls_cases str self tcs [] w)
    as (r & w' & evs & -> & Hm & _ & Htr & Hev & Hr).
  destruct r as [res|err]; simpl.
  - destruct Hr as (new & -> & Hans & Hti).
    destruct (answers_tool_results _ _ Hans) as [Hall Hlen].
    do 3 eexists. split; [reflexivity|]. repeat split; try done.
    exists new. repeat split; try done. lia.
  - do 3 eexists. split; [reflexivity|]. by repeat split.
Qed.

Lemma given_history_later history extra e :
  Measure.given_history self (history ++ extra) e →
  Measure.given_history self history e.
Proof.
  destruct e as [input|]; [|done]. intros [more ->].
  exists (extra ++ more). by rewrite app_assoc.
Qed.

Lemma filter_assistant_tool_results (new : list message) :
  Forall (λ m, Measure.is_tool_result m = true) new →
  List.filter Measure.is_assistant new = []
  ∧ List.filter Measure.is_tool_result new = new
  ∧ Measure.requested_calls new = 0.
Proof.
  induction 1 as [|m new Hm _ (IH1 & IH2 & IH3)]; [done|].
  destruct m; try done. simpl. by rewrite IH1, IH2.
Qed.

Lemma requested_calls_app h1 h2 :
  Measure.requested_calls (h1 ++ h2)
  = Measure.requested_calls h1 + Measure.requested_calls h2.
Proof.
  induction h1 as [|m h1 IH]; [done|].
  destruct m; simpl; rewrite IH; lia.
Qed.

(** What a run from a node does, whatever its outcome.  The [action] node
    is only entered on a state that ends with an assistant message. *)
Lemma run_cases fuel : ∀ n state w,
  (n = action →
   ∃ content tcs, last (messages state) = Some (AIMessage content tcs)) →
  ∃ r w' evs,
    run str fuel self n state w = (r, w')
    ∧ trace w' = trace w ++ evs
    ∧ Forall (Measure.given_history self (messages state)) evs
    ∧ match r with
      | Return (Some final) =>
          ∃ new content,
            messages final = messages state ++ new
            ∧ last (messages final) = Some (AIMessage content [])
            ∧ Forall (λ m, Measure.is_assistant m || Measure.is_tool_result m
                           = true) new
            ∧ model_calls w'
              = model_calls w + length (List.filter Measure.is_assistant new)
            ∧ tool_invocations w'
              = tool_invocations w
                + length (List.filter Measure.is_tool_result new)
            ∧ tool_invocations w'
              = tool_invocations w + Measure.pending_calls n (messages state)
                + Measure.requested_calls new
      | Return None => True
      | Raise err => (∃ key, err = KeyError key) ∨ (∃ e, err = Raised e)
      end.
Proof.
  induction fuel as [|fuel IH]; intros n state w Hentry.
  - exists (Return None), w, []. by rewrite app_nil_r.
  - simpl. unfold mbind at 1, M_bind at 1. destruct n.
    + rewrite step_llm_eq. simpl.
      assert (Measure.given_history self (messages state)
                (EvModelInvoke (model_input self state))) as Hgiven.
      { exists []. rewrite app_nil_r. by destruct state. }
      destruct (model self _ _) as [[content tcs]|e]; simpl.
      * destruct tcs as [|tc tcs]; simpl.
        -- do 3 eexists. split; [reflexivity|]. simpl.
           split; [reflexivity|]. split; [by constructor|].
           exists [AIMessage content []], content. simpl.
           rewrite last_snoc. repeat split; try done; try lia.
           by repeat constructor.
        -- edestruct (IH action
                        {| messages := messages state
                                       ++ [AIMessage content (tc :: tcs)] |})
             as (r & w' & evs & -> & Htr & Hev & Hr).
           { intros _. simpl. rewrite last_snoc. eauto. }
           simpl in *. exists r, w', (EvModelInvoke (model_input self state) :: evs).
           split; [done|]. split; [by rewrite Htr, <- app_assoc|].
           split.
           { constructor; [done|].
             eapply Forall_impl; [exact Hev|]. intros e.
             apply given_history_later. }
           destruct r as [[final|]|err]; try done.
           destruct Hr as (new & content' & Hnew & Hlast & Hall & Hm & Ht & Hp).
           exists (AIMessage content (tc :: tcs) :: new), content'.
           split; [by rewrite Hnew, <- app_assoc|]. split; [done|].
           split; [by constructor|].
           unfold Measure.pending_calls in Hp. simpl in Hp.
           rewrite last_snoc in Hp. simpl in *. repeat split; lia.
      * do 3 eexists. split; [reflexivity|]. simpl.
        split; [reflexivity|]. split; [by constructor|]. eauto.
    + destruct (Hentry eq_refl) as (content & tcs & Hlast).
      destruct (step_action_cases state w content tcs Hlast)
        as (r1 & w1 & evs1 & -> & Hm1 & Htr1 & Hev1 & Hr1).
      destruct r1 as [[next state1]|err]; simpl.
      * destruct Hr1 as (-> & new1 & Hnew1 & Hall1 & Hlen1 & Hti1).
        destruct (IH llm state1 w1) as (r & w' & evs & -> & Htr & Hev & Hr);
          [done|].
        exists r, w', (evs1 ++ evs). split; [done|].
        split; [by rewrite Htr, Htr1, app_assoc|]. split.
        { apply Forall_app. split.
          - eapply Forall_impl; [exact Hev1|].
            intros [inp|] Hne; [by destruct (Hne inp) | done].
          - rewrite Hnew1 in Hev. eapply Forall_impl; [exact Hev|].
            intros e. apply given_history_later. }
        destruct r as [[final|]|err]; try done.
        destruct Hr as (new & content' & Hnew & Hlast' & Hall & Hm & Ht & Hp).
        destruct (filter_assistant_tool_results new1 Hall1)
          as (Hfa & Hft & Hreq).
        exists (new1 ++ new), content'.
        split; [by rewrite Hnew, Hnew1, app_assoc|]. split; [done|].
        split.
        { apply Forall_app. split; [|done].
          eapply Forall_impl; [exact Hall1|]. intros m ->.
          by rewrite orb_true_r. }
        unfold Measure.pending_calls in *. rewrite Hlast. simpl in Hp.
        rewrite !List.filter_app, Hfa, Hft, !length_app.
        rewrite requested_calls_app, Hreq. simpl. lia.
      * exists (Raise err), w1, evs1. split; [done|]. split; [done|].
        split; [|done]. eapply Forall_impl; [exact Hev1|].
        intros [inp|] Hne; [by destruct (Hne inp) | done].
Qed.

(** X9.  The look-ups [state['messages'][-1]] and [.tool_calls] of
    [exists_action] and [take_action] never fail in a run started by
    [graph.invoke]: whatever the input, also an empty one or one that ends
    with a human message, a run does not end in the [IndexError] or the
    [AttributeError] of these look-ups, because the [llm] node runs first
    and leaves an assistant message at the end of the history. *)
Theorem graph_invoke_lookups_never_fail fuel input w err w' :
  graph_invoke str fuel self input w = (Raise err, w') →
  err ≠ IndexError ∧ ∀ m, err ≠ AttributeError m.
Proof.
  intros Hrun.
  destruct (run_cases fuel llm input w) as (r & w1 & evs & Hr & _ & _ & Hcase);
    [done|].
  unfold graph_invoke, entry_point in Hrun. rewrite Hrun in Hr.
  injection Hr as <- <-.
  destruct Hcase as [[key ->] | [e ->]]; by split.
Qed.

(** X10.  The conversation a run returns ends with an assistant message
    that carries no tool call. *)
Theorem graph_invoke_ends_with_plain_reply fuel input w final w' :
  graph_invoke str fuel self input w = (Return (Some final), w') →
  ∃ content, last (messages final) = Some (AIMessage content []).
Proof.
  intros Hrun.
  destruct (run_cases fuel llm input w) as (r & w1 & evs & Hr & _ & _ & Hcase);
    [done|].
  unfold graph_invoke, entry_point in Hrun. rewrite Hrun in Hr.
  injection Hr as <- <-.
  destruct Hcase as (new & content & _ & Hlast & _). by exists content.
Qed.

(** X11.  A run adds assistant messages and tool-result messages only,
    never a system or a human message: one assistant message per call of
    the model and one tool-result message per tool invocation. *)
Theorem graph_invoke_adds_replies_only fuel input w final w' :
  graph_invoke str fuel self input w = (Return (Some final), w') →
  ∃ new,
    messages final = messages input ++ new
    ∧ Forall (λ m, Measure.is_assistant m || Measure.is_tool_result m = true)
        new
    ∧ model_calls w'
      = model_calls w + length (List.filter Measure.is_assistant new)
    ∧ tool_invocations w'
      = tool_invocations w
        + length (List.filter Measure.is_tool_result new).
Proof.
  intros Hrun.
  destruct (run_cases fuel llm input w) as (r & w1 & evs & Hr & _ & _ & Hcase);
    [done|].
  unfold graph_invoke, entry_point in Hrun. rewrite Hrun in Hr.
  injection Hr as <- <-.
  destruct Hcase as (new & content & Hnew & _ & Hall & Hm & Ht & _).
  by exists new.
Qed.

(** X12.  In a run that returns, every tool call that the model asked
    for has been run, once: the tools were invoked as many times as the
    assistant messages added by the run carry tool calls. *)
Theorem graph_invoke_runs_every_requested_call fuel input w final w' :
  graph_invoke str fuel self input w = (Return (Some final), w') →
  ∃ new,
    messages final = messages input ++ new
    ∧ tool_invocations w'
      = tool_invocations w + Measure.requested_calls new.
Proof.
  intros Hrun.
  destruct (run_cases fuel llm input w) as (r & w1 & evs & Hr & _ & _ & Hcase);
    [done|].
  unfold graph_invoke, entry_point in Hrun. rewrite Hrun in Hr.
  injection Hr as <- <-.
  destruct Hcase as (new & content & Hnew & _ & _ & _ & _ & Hp).
  exists new. split; [done|]. simpl in Hp. lia.
Qed.

Lemma model_inputs_app t1 t2 :
  Measure.model_inputs (t1 ++ t2)
  = Measure.model_inputs t1 ++ Measure.model_inputs t2.
Proof. apply omap_app. Qed.

Lemma model_inputs_tools evs :
  Forall (λ e, ∀ inp, e ≠ EvModelInvoke inp) evs →
  Measure.model_inputs evs = [].
Proof.
  induction 1 as [|e evs He _ IH]; [done|].
  destruct e as [inp|]; [by destruct (He inp) | exact IH].
Qed.

Lemma histories_at_replies_tool_results history new1 new :
  Forall (λ m, Measure.is_tool_result m = true) new1 →
  Measure.histories_at_replies history (new1 ++ new)
  = Measure.histories_at_replies (history ++ new1) new.
Proof.
  intros Hall. revert history.
  induction Hall as [|m new1 Hm _ IH]; intros history.
  - by rewrite app_nil_r.
  - simpl. destruct m; try done. simpl.
    rewrite IH. by rewrite <- app_assoc.
Qed.

(** The model invocations of a run that returns, from any node. *)
Lemma run_model_inputs fuel : ∀ n state w final w',
  (n = action →
   ∃ content tcs, last (messages state) = Some (AIMessage content tcs)) →
  run str fuel self n state w = (Return (Some final), w') →
  ∃ new evs,
    messages final = messages state ++ new
    ∧ trace w' = trace w ++ evs
    ∧ Measure.model_inputs evs
      = (λ history, model_input self {| messages := history |})
        <$> Measure.histories_at_replies (messages state) new.
Proof.
  induction fuel as [|fuel IH]; intros n state w final w' Hentry; [done|].
  simpl. unfold mbind at 1, M_bind at 1. destruct n.
  - rewrite step_llm_eq. simpl.
    destruct (model self _ _) as [[content tcs]|e]; simpl; [|done].
    destruct tcs as [|tc tcs]; simpl.
    + intros [= <- <-]. simpl.
      exists [AIMessage content []], [EvModelInvoke (model_input self state)].
      repeat split; simpl; by destruct state.
    + intros Hrun.
      assert (action = action →
              ∃ content' tcs',
                last (messages
                        {| messages := messages state
                                       ++ [AIMessage content (tc :: tcs)] |})
                = Some (AIMessage content' tcs')) as Hent.
      { intros _. simpl. rewrite last_snoc. eauto. }
      destruct (IH action _ _ final w' Hent Hrun)
        as (new & evs & Hnew & Htr & Hin).
      simpl in *.
      exists (AIMessage content (tc :: tcs) :: new),
             (EvModelInvoke (model_input self state) :: evs).
      split; [by rewrite Hnew, <- app_assoc|].
      split; [by rewrite Htr, <- app_assoc|].
      simpl. unfold Measure.model_inputs in *. simpl. rewrite Hin.
      by destruct state.
  - destruct (Hentry eq_refl) as (content & tcs & Hlast).
    destruct (step_action_cases state w content tcs Hlast)
      as (r1 & w1 & evs1 & -> & _ & Htr1 & Hev1 & Hr1).
    destruct r1 as [[next state1]|err]; simpl; [|done].
    destruct Hr1 as (-> & new1 & Hnew1 & Hall1 & _ & _).
    intros Hrun.
    destruct (IH llm state1 w1 final w' ltac:(done) Hrun)
      as (new & evs & Hnew & Htr & Hin).
    exists (new1 ++ new), (evs1 ++ evs).
    split; [by rewrite Hnew, Hnew1, app_assoc|].
    split; [by rewrite Htr, Htr1, app_assoc|].
    rewrite model_inputs_app, (model_inputs_tools evs1 Hev1). simpl.
    rewrite histories_at_replies_tool_results by done.
    by rewrite Hin, Hnew1.
Qed.

(** X13.  In a run that returns, every call of the model is given the
    whole conversation as it stands at that call: the input of the run
    followed by exactly the messages that the run had appended before the
    reply in question, after the system message when a system prompt is
    set.  There is one call per appended assistant message, in order. *)
Theorem graph_invoke_gives_model_whole_history fuel input w final w' :
  graph_invoke str fuel self input w = (Return (Some final), w') →
  ∃ new evs,
    messages final = messages input ++ new
    ∧ trace w' = trace w ++ evs
    ∧ Measure.model_inputs evs
      = (λ history, model_input self {| messages := history |})
        <$> Measure.histories_at_replies (messages input) new.
Proof. apply run_model_inputs. done. Qed.

End RunFacts.

(** ** Budgets and composition of the evaluation loop *)

Section HarnessFacts.
Import Utils.
Variable sql_helper : nat → string → result exn pyval.
Variable chat_api : nat → chat_request → result exn chat_response.

(** One call of the judge is one request to the API and no sleep. *)
Lemma judge_effects nlq sql1 sql2 w :
  ∃ s w' evs,
    judge_sql_similarity chat_api nlq sql1 sql2 w = (Return s, w')
    ∧ get_sql_calls w' = get_sql_calls w
    ∧ chat_calls w' = S (chat_calls w)
    ∧ trace w' = trace w ++ evs
    ∧ Measure.sleep_seconds evs = 0.
Proof.
  unfold judge_sql_similarity. eff_unfold. cbn.
  destruct (chat_api _ _) as [[[|[c|] cs]]|e]; cbn;
    do 3 eexists; (split; [reflexivity|]); (split; [reflexivity|]);
    (split; [reflexivity|]); cbn; rewrite <- ?app_assoc;
    (split; [reflexivity|]); reflexivity.
Qed.

(** The record a case yields does not depend on the records before it. *)
Lemma evaluate_case_acc case results w :
  evaluate_case sql_helper chat_api case results w
  = match evaluate_case sql_helper chat_api case [] w with
    | (Return rs, w') => (Return (results ++ rs), w')
    | (Raise e, w') => (Raise e, w')
    end.
Proof.
  unfold evaluate_case. eff_unfold. cbn.
  repeat (case_match; cbn in *; simplify_eq); done.
Qed.

(** What a case costs: one call of the helper, or two when the first one
    raised; two seconds of sleep, or six; one request to the chat API when
    the record went to the judge, none otherwise. *)
Lemma evaluate_case_effects case results w :
  ∃ r w' evs,
    evaluate_case sql_helper chat_api case results w
      = (Return (results ++ [r]), w')
    ∧ trace w' = trace w ++ evs
    ∧ chat_calls w' = chat_calls w + (if Measure.judged r then 1 else 0)
    ∧ (((∃ v, sql_helper (get_sql_calls w) (question case) = Return v)
        ∧ get_sql_calls w' = get_sql_calls w + 1
        ∧ Measure.sleep_seconds evs = 2)
       ∨ ((∃ e, sql_helper (get_sql_calls w) (question case) = Raise e)
          ∧ get_sql_calls w' = get_sql_calls w + 2
          ∧ Measure.sleep_seconds evs = 6)).
Proof.
  unfold evaluate_case. eff_unfold. cbn.
  repeat (first [ match goal with
                  | |- context [String.eqb ?a ?b] => destruct (String.eqb_spec a b)
                  end
                | case_match ]; cbn in *; simplify_eq).
  all: try match goal with
    | H : judge_sql_similarity _ ?q ?e ?g ?w0 = (Raise _, _) |- _ =>
        destruct (judge_effects q e g w0) as (? & ? & ? & Hj & _);
        rewrite Hj in H; discriminate H
    end.
  all: try match goal with
    | H : judge_sql_similarity _ ?q ?e ?g ?w0 = _ |- _ =>
        destruct (judge_effects q e g w0) as (? & ? & ? & Hj & Hg & Hc & Ht & Hs);
        rewrite Hj in H; simplify_eq; simpl in Ht, Hg, Hc
    end.
  all: do 3 eexists; (split; [reflexivity|]); simpl;
    rewrite ?Ht, <- ?app_assoc; (split; [reflexivity|]).
  all: unfold Measure.judged, Measure.sleep_seconds in *; simpl;
    rewrite ?Hs, ?Hg, ?Hc.
  all: lazymatch goal with
    | H : sql_helper (get_sql_calls _) _ = Raise _ |- _ ∧ (_ ∨ _) =>
        split; [| right; split; [eauto|]]
    | |- _ ∧ (_ ∨ _) => split; [| left; split; [eauto|]]
    end.
  all: try match goal with
    | H : ?a ≠ ?b |- context [String.eqb ?a ?b] =>
        apply String.eqb_neq in H; rewrite H
    end; simpl; try lia.
Qed.

Lemma sleep_seconds_app t1 t2 :
  Measure.sleep_seconds (t1 ++ t2)
  = Measure.sleep_seconds t1 + Measure.sleep_seconds t2.
Proof.
  induction t1 as [|e t1 IH]; [done|].
  destruct e; simpl; rewrite IH; lia.
Qed.

(** A case against the specification: it appends the record the
    specification asks for at the calls the case starts from, it makes the
    calls of the helper and the requests to the chat API counted there, and
    it sleeps two seconds, and four more when the first call raised. *)
Lemma evaluate_case_record case results w :
  ∃ w' evs,
    evaluate_case sql_helper chat_api case results w
    = (Return (results ++
         [Expected.record sql_helper chat_api
            (get_sql_calls w) (chat_calls w) case]), w')
    ∧ trace w' = trace w ++ evs
    ∧ get_sql_calls w'
      = get_sql_calls w
        + Expected.helper_calls sql_helper (get_sql_calls w) case
    ∧ chat_calls w'
      = chat_calls w
        + Expected.chat_requests
            (Expected.record sql_helper chat_api
               (get_sql_calls w) (chat_calls w) case)
    ∧ Measure.sleep_seconds evs
      = if Expected.first_call_raised sql_helper (get_sql_calls w)
             (question case)
        then 6 else 2.
Proof.
  unfold evaluate_case, judge_sql_similarity.
  unfold Expected.record, Expected.generation, Expected.helper_calls,
    Expected.chat_requests, Expected.first_call_raised, Expected.verdict,
    Expected.failure, Measure.judged.
  eff_unfold. cbn.
  repeat (case_match; cbn in *; simplify_eq).
  all: try congruence.
  all: unfold Py.strip, Py.no_attribute in *; simplify_eq.
  all: do 2 eexists; (split; [reflexivity|]); simpl;
    rewrite <- ?app_assoc; (split; [reflexivity|]); simpl.
  all: repeat split; try done; try lia.
Qed.

(** The costs of the cases add up along the loop. *)
Lemma evaluate_loop_effects test_cases : ∀ acc w,
  ∃ rs w' evs retries,
    for_each test_cases (evaluate_case sql_helper chat_api) acc w
      = (Return (acc ++ rs), w')
    ∧ trace w' = trace w ++ evs
    ∧ retries ≤ length test_cases
    ∧ get_sql_calls w' = get_sql_calls w + length test_cases + retries
    ∧ chat_calls w'
      = chat_calls w + length (List.filter Measure.judged rs)
    ∧ Measure.sleep_seconds evs = 2 * length test_cases + 4 * retries.
Proof.
  induction test_cases as [|c cs IH]; intros acc w.
  - exists [], w, [], 0. rewrite !app_nil_r. simpl. repeat split; lia.
  - destruct (evaluate_case_effects c acc w)
      as (r & w1 & evs1 & Hrun1 & Htr1 & Hchat1 & Hgen1).
    destruct (IH (acc ++ [r]) w1)
      as (rs & w' & evs & retries & Hrun & Htr & Hle & Hgen & Hchat & Hsleep).
    assert (∃ once, once ≤ 1 ∧ get_sql_calls w1 = get_sql_calls w + 1 + once
                    ∧ Measure.sleep_seconds evs1 = 2 + 4 * once)
      as (once & Honce & Hg1 & Hs1).
    { destruct Hgen1 as [(_ & ? & ?) | (_ & ? & ?)];
        [exists 0 | exists 1]; repeat split; lia. }
    exists (r :: rs), w', (evs1 ++ evs), (once + retries). split.
    { cbn [for_each]. unfold mbind, M_bind. rewrite Hrun1, Hrun.
      by rewrite <- app_assoc. }
    split; [by rewrite Htr, Htr1, app_assoc|].
    rewrite sleep_seconds_app. simpl.
    destruct (Measure.judged r); simpl; repeat split; lia.
Qed.

Lemma records_length k j test_cases :
  length (Expected.records sql_helper chat_api k j test_cases)
  = length test_cases.
Proof.
  revert k j. induction test_cases as [|c cs IH]; intros k j; [done|].
  simpl. by rewrite IH.
Qed.

(** The loop against the specification: it appends the records the
    specification asks for, and its calls and its sleep are those of the
    cases. *)
Lemma evaluate_loop_records test_cases : ∀ acc w,
  ∃ w' evs,
    for_each test_cases (evaluate_case sql_helper chat_api) acc w
      = (Return (acc ++ Expected.records sql_helper chat_api
                          (get_sql_calls w) (chat_calls w) test_cases), w')
    ∧ trace w' = trace w ++ evs
    ∧ get_sql_calls w'
      = get_sql_calls w + length test_cases
        + length (Expected.retried sql_helper (get_sql_calls w) test_cases)
    ∧ chat_calls w'
      = chat_calls w
        + length (List.filter Measure.judged
                    (Expected.records sql_helper chat_api
                       (get_sql_calls w) (chat_calls w) test_cases))
    ∧ Measure.sleep_seconds evs
      = 2 * length test_cases
        + 4 * length (Expected.retried sql_helper (get_sql_calls w)
                        test_cases).
Proof.
  induction test_cases as [|c cs IH]; intros acc w.
  - exists w, []. rewrite !app_nil_r. simpl. repeat split; lia.
  - destruct (evaluate_case_record c acc w)
      as (w1 & evs1 & Hrun1 & Htr1 & Hgen1 & Hchat1 & Hsleep1).
    destruct (IH (acc ++ [Expected.record sql_helper chat_api
                            (get_sql_calls w) (chat_calls w) c]) w1)
      as (w' & evs & Hrun & Htr & Hgen & Hchat & Hsleep).
    rewrite Hgen1, Hchat1 in Hrun. rewrite Hgen1, Hchat1 in Hchat.
    rewrite Hgen1 in Hgen. rewrite Hgen1 in Hsleep.
    exists w', (evs1 ++ evs). split.
    { cbn [for_each Expected.records]. unfold mbind, M_bind.
      rewrite Hrun1, Hrun. by rewrite <- app_assoc. }
    split; [by rewrite Htr, Htr1, app_assoc|].
    rewrite sleep_seconds_app, Hsleep1, Hsleep, Hgen, Hchat.
    cbn [Expected.records Expected.retried List.filter length].
    unfold Expected.helper_calls, Expected.chat_requests.
    destruct (Expected.first_call_raised _ _ _);
      destruct (Measure.judged _); simpl; repeat split; lia.
Qed.

(** C1.  [evaluate] never raises.  For every list of test cases and every
    behaviour of the helper and of the chat API it returns exactly the
    records the specification asks for, one per test case and in the order
    of the input.  The record at position [i] is the record of case [i] at
    the calls of the helper and of the chat API that the cases before it
    have left: a failure of that case (a generation error after the
    retry, an empty answer, a judge that fails) is captured in that record
    (the error text, or the judgment ["Error"]) and the cases after it
    are evaluated all the same.  The record carries the question and the
    reference SQL of its case, and is either a failure record (no
    generated SQL, no exact match, no judgment, an error text) or a
    success record (a generated SQL string and no error field). *)
Theorem evaluate_one_record_per_case test_cases w :
  ∃ w',
    evaluate sql_helper chat_api test_cases w
      = (Return (Expected.records sql_helper chat_api
                   (get_sql_calls w) (chat_calls w) test_cases), w')
    ∧ length (Expected.records sql_helper chat_api
                (get_sql_calls w) (chat_calls w) test_cases)
      = length test_cases
    ∧ ∀ i c, test_cases !! i = Some c →
        ∃ before w_i,
          evaluate sql_helper chat_api (take i test_cases) w
            = (Return before, w_i)
          ∧ Expected.records sql_helper chat_api
              (get_sql_calls w) (chat_calls w) test_cases !! i
            = Some (Expected.record sql_helper chat_api
                      (get_sql_calls w_i) (chat_calls w_i) c)
          ∧ res_question
              (Expected.record sql_helper chat_api
                 (get_sql_calls w_i) (chat_calls w_i) c) = question c
          ∧ expected_sql
              (Expected.record sql_helper chat_api
                 (get_sql_calls w_i) (chat_calls w_i) c) = actual_query c
          ∧ (let r := Expected.record sql_helper chat_api
                        (get_sql_calls w_i) (chat_calls w_i) c in
             (generated_sql r = None ∧ exact_match r = false
              ∧ llm_judged_equivalent r = None ∧ is_Some (error r))
             ∨ (is_Some (generated_sql r) ∧ error r = None)).
Proof.
  destruct (evaluate_loop_records test_cases [] w) as (w' & evs & Hrun & _).
  exists w'. split; [exact Hrun|]. split; [apply records_length|].
  intros i c Hc.
  destruct (evaluate_loop_records (take i test_cases) [] w)
    as (w_i & evs_i & Hrun_i & _).
  exists (Expected.records sql_helper chat_api (get_sql_calls w)
            (chat_calls w) (take i test_cases)), w_i.
  split; [exact Hrun_i|].
  destruct (evaluate_loop_records (c :: drop (S i) test_cases)
              (Expected.records sql_helper chat_api (get_sql_calls w)
                 (chat_calls w) (take i test_cases)) w_i)
    as (w2 & evs2 & Hrun2 & _).
  assert (for_each (take i test_cases ++ c :: drop (S i) test_cases)
            (evaluate_case sql_helper chat_api) [] w
          = (Return (Expected.records sql_helper chat_api (get_sql_calls w)
                       (chat_calls w) test_cases), w')) as Hsplit.
  { rewrite (take_drop_middle test_cases i c Hc). exact Hrun. }
  rewrite for_each_app, Hrun_i in Hsplit. cbv beta iota in Hsplit.
  rewrite !app_nil_l in Hsplit. rewrite Hrun2 in Hsplit.
  injection Hsplit as Hrecords _.
  split.
  - rewrite <- Hrecords. rewrite lookup_app_r; rewrite records_length, length_take.
    + apply lookup_lt_Some in Hc.
      replace (i - i `min` length test_cases) with 0 by lia. done.
    + lia.
  - unfold Expected.record, Expected.failure.
    repeat case_match; simpl; repeat split; eauto.
Qed.

(** X14.  A case calls the helper once, and once more exactly when its
    first call raised; it sends one request to the chat API exactly when
    its record has generated SQL and no exact match.  Over a batch,
    [evaluate] calls the helper once per case plus once for each case
    whose first call raised, and sends one request to the chat API per
    record that went to the judge. *)
Theorem evaluate_call_budget :
  (∀ case results w, ∃ r w',
      evaluate_case sql_helper chat_api case results w
        = (Return (results ++ [r]), w')
      ∧ get_sql_calls w'
        = get_sql_calls w
          + (if Expected.first_call_raised sql_helper (get_sql_calls w)
                  (question case)
             then 2 else 1)
      ∧ chat_calls w' = chat_calls w + (if Measure.judged r then 1 else 0))
  ∧ (∀ test_cases w, ∃ results w',
      evaluate sql_helper chat_api test_cases w = (Return results, w')
      ∧ get_sql_calls w'
        = get_sql_calls w + length test_cases
          + length (Expected.retried sql_helper (get_sql_calls w) test_cases)
      ∧ chat_calls w'
        = chat_calls w + length (List.filter Measure.judged results)).
Proof.
  split.
  - intros case results w.
    destruct (evaluate_case_record case results w)
      as (w' & evs & Hrun & _ & Hgen & Hchat & _).
    eexists _, w'. split; [exact Hrun|]. by split.
  - intros test_cases w.
    destruct (evaluate_loop_records test_cases [] w)
      as (w' & evs & Hrun & _ & Hgen & Hchat & _).
    eexists _, w'. split; [exact Hrun|]. by split.
Qed.

(** X15.  A case sleeps two seconds when its first call of the helper
    returns and six seconds (two, then four before the retry) when it
    raises, whatever the answer and the judge do.  Over a batch,
    [evaluate] sleeps two seconds per case plus four seconds for each case
    whose first call raised. *)
Theorem evaluate_sleep_budget :
  (∀ case results w, ∃ r w' evs,
      evaluate_case sql_helper chat_api case results w
        = (Return (results ++ [r]), w')
      ∧ trace w' = trace w ++ evs
      ∧ Measure.sleep_seconds evs
        = if Expected.first_call_raised sql_helper (get_sql_calls w)
               (question case)
          then 6 else 2)
  ∧ (∀ test_cases w, ∃ results w' evs,
      evaluate sql_helper chat_api test_cases w = (Return results, w')
      ∧ trace w' = trace w ++ evs
      ∧ Measure.sleep_seconds evs
        = 2 * length test_cases
          + 4 * length (Expected.retried sql_helper (get_sql_calls w)
                          test_cases)).
Proof.
  split.
  - intros case results w.
    destruct (evaluate_case_record case results w)
      as (w' & evs & Hrun & Htr & _ & _ & Hsleep).
    eexists _, w', evs. split; [exact Hrun|]. by split.
  - intros test_cases w.
    destruct (evaluate_loop_records test_cases [] w)
      as (w' & evs & Hrun & Htr & _ & _ & Hsleep).
    eexists _, w', evs. split; [exact Hrun|]. by split.
Qed.

(** The loop only appends to its accumulator. *)
Lemma evaluate_loop_acc test_cases : ∀ acc w,
  for_each test_cases (evaluate_case sql_helper chat_api) acc w
  = match evaluate sql_helper chat_api test_cases w with
    | (Return rs, w') => (Return (acc ++ rs), w')
    | (Raise e, w') => (Raise e, w')
    end.
Proof.
  unfold evaluate.
  induction test_cases as [|c cs IH]; intros acc w.
  - simpl. by rewrite app_nil_r.
  - cbn [for_each]. unfold mbind, M_bind.
    rewrite (evaluate_case_acc c acc w).
    destruct (evaluate_case sql_helper chat_api c [] w) as [[r1|e] w1]; [|done].
    rewrite (IH (acc ++ r1) w1), (IH r1 w1).
    destruct (for_each cs _ [] w1) as [[rs|e] w']; [|done].
    by rewrite <- app_assoc.
Qed.

(** X16.  Evaluating a batch is evaluating its first part and then its
    second part where the first one left the collaborators: the records of
    the whole are the records of the parts, in order.  No case depends on
    the records of the cases before it. *)
Theorem evaluate_app cases1 cases2 w :
  ∃ results1 w1 results2 w2,
    evaluate sql_helper chat_api cases1 w = (Return results1, w1)
    ∧ evaluate sql_helper chat_api cases2 w1 = (Return results2, w2)
    ∧ evaluate sql_helper chat_api (cases1 ++ cases2) w
      = (Return (results1 ++ results2), w2).
Proof.
  destruct (evaluate_loop_effects cases1 [] w)
    as (rs1 & w1 & _ & _ & Hrun1 & _).
  destruct (evaluate_loop_effects cases2 [] w1)
    as (rs2 & w2 & _ & _ & Hrun2 & _).
  exists rs1, w1, rs2, w2. split; [exact Hrun1|]. split; [exact Hrun2|].
  unfold evaluate. rewrite for_each_app, Hrun1. simpl.
  rewrite evaluate_loop_acc. unfold evaluate. by rewrite Hrun2.
Qed.

(** The success record in closed form. *)
Lemma evaluate_case_with_sql case results w v sql :
  generated sql_helper (get_sql_calls w) (question case) v →
  Py.truthy v = true →
  Py.getitem0 v = Return (PyStr sql) →
  sql ≠ ""%string →
  ∃ w',
    evaluate_case sql_helper chat_api case results w
    = (Return (results ++
         [ {| res_question := question case;
              expected_sql := actual_query case;
              generated_sql := Some sql;
              exact_match :=
                String.eqb (PyStr.lower (PyStr.strip sql))
                  (PyStr.lower (PyStr.strip (actual_query case)));
              llm_judged_equivalent :=
                if String.eqb (PyStr.lower (PyStr.strip sql))
                     (PyStr.lower (PyStr.strip (actual_query case)))
                then None
                else Some
                  match chat_api (chat_calls w)
                          {| req_model := "gpt-4o";
                             req_messages :=
                               [("user"%string,
                                 judge_prompt (question case)
                                   (actual_query case) sql)];
                             req_temperature := 0 |}
                  with
                  | Return {| choices := Some content :: _ |} =>
                      PyStr.strip content
                  | _ => "Error"%string
                  end;
              error := None |} ]), w')
    ∧ chat_calls w'
      = chat_calls w
        + (if String.eqb (PyStr.lower (PyStr.strip sql))
                (PyStr.lower (PyStr.strip (actual_query case)))
           then 0 else 1).
Proof.
  intros Hgen Htrue Hfirst Hne.
  unfold evaluate_case, judge_sql_similarity. eff_unfold. cbn.
  destruct Hgen as [H1 | [[err H1] H2]]; rewrite H1; cbn; rewrite ?H2; cbn.
  all: rewrite Htrue; cbn; rewrite Hfirst; cbn.
  all: apply String.eqb_neq in Hne; rewrite Hne; cbn.
  all: destruct (String.eqb (PyStr.lower (PyStr.strip sql))
                   (PyStr.lower (PyStr.strip (actual_query case)))); cbn.
  all: try (destruct (chat_api _ _) as [[[|[c|] cs]]|e]; cbn).
  all: eexists; split; [reflexivity|]; simpl; lia.
Qed.

(** X17.  When SQL was generated and is no exact match, the record is a
    success record whose judgment is what the one request to the chat API
    gave: the stripped content of the first choice, or ["Error"] when the
    request raised or carried no content.  A failing judge costs no
    retry and does not turn the record into a failure record. *)
Theorem judgment_recorded case results w v sql :
  generated sql_helper (get_sql_calls w) (question case) v →
  Py.truthy v = true →
  Py.getitem0 v = Return (PyStr sql) →
  sql ≠ ""%string →
  PyStr.lower (PyStr.strip sql)
    ≠ PyStr.lower (PyStr.strip (actual_query case)) →
  ∃ w',
    evaluate_case sql_helper chat_api case results w
    = (Return (results ++
         [ {| res_question := question case;
              expected_sql := actual_query case;
              generated_sql := Some sql;
              exact_match := false;
              llm_judged_equivalent :=
                Some
                  match chat_api (chat_calls w)
                          {| req_model := "gpt-4o";
                             req_messages :=
                               [("user"%string,
                                 judge_prompt (question case)
                                   (actual_query case) sql)];
                             req_temperature := 0 |}
                  with
                  | Return {| choices := Some content :: _ |} =>
                      PyStr.strip content
                  | _ => "Error"%string
                  end;
              error := None |} ]), w')
    ∧ chat_calls w' = chat_calls w + 1.
Proof.
  intros Hgen Htrue Hfirst Hne Hdiff.
  destruct (evaluate_case_with_sql case results w v sql Hgen Htrue Hfirst Hne)
    as (w' & Hrun & Hchat).
  apply String.eqb_neq in Hdiff. rewrite Hdiff in Hrun, Hchat.
  by exists w'.
Qed.

(** X18.  A generated query that differs from the reference only in the
    case of its letters and in white space around it is an exact match:
    the record has no judgment and the chat API is not called. *)
Theorem exact_match_ignores_case_and_padding
    case results w v l1 a r1 l2 b r2 :
  generated sql_helper (get_sql_calls w) (question case) v →
  Py.truthy v = true →
  Py.getitem0 v = Return (PyStr (l1 +:+ a +:+ r1)) →
  l1 +:+ a +:+ r1 ≠ ""%string →
  actual_query case = l2 +:+ b +:+ r2 →
  PyStr.all_space l1 = true → PyStr.all_space r1 = true →
  PyStr.all_space l2 = true → PyStr.all_space r2 = true →
  PyStr.lower a = PyStr.lower b →
  ∃ w',
    evaluate_case sql_helper chat_api case results w
    = (Return (results ++
         [ {| res_question := question case;
              expected_sql := actual_query case;
              generated_sql := Some (l1 +:+ a +:+ r1);
              exact_match := true;
              llm_judged_equivalent := None;
              error := None |} ]), w')
    ∧ chat_calls w' = chat_calls w.
Proof.
  intros Hgen Htrue Hfirst Hne Hexp Hl1 Hr1 Hl2 Hr2 Hab.
  destruct (evaluate_case_with_sql case results w v _ Hgen Htrue Hfirst Hne)
    as (w' & Hrun & Hchat).
  assert (String.eqb (PyStr.lower (PyStr.strip (l1 +:+ a +:+ r1)))
            (PyStr.lower (PyStr.strip (actual_query case))) = true) as Heq.
  { apply String.eqb_eq. rewrite Hexp.
    by apply normalised_eq_case_padding. }
  rewrite Heq in Hrun, Hchat. exists w'. split; [done | lia].
Qed.

(** X19.  When the helper hands back a bare string instead of a sequence,
    [generated_sql[0]] is its first character, and that one character is
    what is compared, judged and stored as the generated SQL. *)
Theorem bare_string_answer_keeps_first_character case results w c rest :
  generated sql_helper (get_sql_calls w) (question case)
    (PyStr (String c rest)) →
  ∃ r w',
    evaluate_case sql_helper chat_api case results w
      = (Return (results ++ [r]), w')
    ∧ generated_sql r = Some (String c EmptyString)
    ∧ error r = None
    ∧ exact_match r
      = String.eqb (PyStr.lower (PyStr.strip (String c EmptyString)))
          (PyStr.lower (PyStr.strip (actual_query case))).
Proof.
  intros Hgen.
  destruct (evaluate_case_with_sql case results w _ (String c EmptyString)
              Hgen eq_refl eq_refl) as (w' & Hrun & _); [done|].
  eexists _, w'. split; [exact Hrun|]. done.
Qed.

(** X20.  When the first element of the answer is a truthy number,
    [True], or a non-empty list or tuple, none of which has a [strip]
    method, the [AttributeError] of [.strip] is caught by the outer
    handler: the case is recorded as a failure with that error text, and
    the judge is not asked. *)
Theorem first_element_without_strip_is_failure case results w v first :
  generated sql_helper (get_sql_calls w) (question case) v →
  Py.truthy v = true →
  Py.getitem0 v = Return first →
  Py.truthy first = true →
  (∃ z, first = PyInt z) ∨ (∃ b, first = PyBool b)
  ∨ (∃ l, first = PyList l) ∨ (∃ l, first = PyTuple l) →
  ∃ w',
    evaluate_case sql_helper chat_api case results w
    = (Return (results ++
         [ {| res_question := question case;
              expected_sql := actual_query case;
              generated_sql := None;
              exact_match := false;
              llm_judged_equivalent := None;
              error := Some ("'" +:+ Py.type_name first
                             +:+ "' object has no attribute 'strip'") |} ]),
       w')
    ∧ chat_calls w' = chat_calls w.
Proof.
  intros Hgen Htrue Hfirst Htruthy Hkind.
  unfold evaluate_case. eff_unfold. cbn.
  destruct Hgen as [H1 | [[err H1] H2]]; rewrite H1; cbn; rewrite ?H2; cbn.
  all: rewrite Htrue; cbn; rewrite Hfirst; cbn; rewrite Htruthy; cbn.
  all: destruct Hkind as [[z ->] | [[b ->] | [[l ->] | [l ->]]]]; cbn.
  all: eexists; split; reflexivity.
Qed.

(** X21.  When the answer is truthy but cannot be subscripted (a number,
    [True]), the [TypeError] of [generated_sql[0]] is caught like any
    other error of the case: a failure record with its text, no
    judgment. *)
Theorem non_subscriptable_answer_is_failure case results w v err :
  generated sql_helper (get_sql_calls w) (question case) v →
  Py.truthy v = true →
  Py.getitem0 v = Raise err →
  ∃ w',
    evaluate_case sql_helper chat_api case results w
    = (Return (results ++
         [ {| res_question := question case;
              expected_sql := actual_query case;
              generated_sql := None;
              exact_match := false;
              llm_judged_equivalent := None;
              error := Some (exn_str err) |} ]), w')
    ∧ chat_calls w' = chat_calls w.
Proof.
  intros Hgen Htrue Hfirst.
  unfold evaluate_case. eff_unfold. cbn.
  destruct Hgen as [H1 | [[e1 H1] H2]]; rewrite H1; cbn; rewrite ?H2; cbn.
  all: rewrite Htrue; cbn; rewrite Hfirst; cbn.
  all: eexists; split; reflexivity.
Qed.

(** X22.  Only an exception makes [evaluate] ask the helper again.  When
    the first call returns, also with an empty or unusable answer, the
    helper is called once for the case and the case sleeps two seconds. *)
Theorem returned_answer_is_not_retried case results w v :
  sql_helper (get_sql_calls w) (question case) = Return v →
  ∃ r w' evs,
    evaluate_case sql_helper chat_api case results w
      = (Return (results ++ [r]), w')
    ∧ trace w' = trace w ++ evs
    ∧ get_sql_calls w' = get_sql_calls w + 1
    ∧ Measure.sleep_seconds evs = 2.
Proof.
  intros Hret.
  destruct (evaluate_case_effects case results w)
    as (r & w' & evs & Hrun & Htr & _ & [(_ & Hg & Hs) | ([e He] & _)]).
  - by exists r, w', evs.
  - rewrite Hret in He. discriminate He.
Qed.

End HarnessFacts.

(** ** The further properties on concrete collaborators *)

Section OnCases.
Import Scenario Cases.

Lemma execute_sql_script_relative_witness :
  Script.execute_sql_script app_dir disk accepting_cursor "schema.sql"
    script_start
  = (Return (),
     {| Script.trace :=
          [Script.EvOpen "/srv/app/SQL_Files/schema.sql"; Script.EvRead;
           Script.EvClose;
           Script.EvExecuteScript
             "CREATE TABLE doctors (id INTEGER, name TEXT);"] |}).
Proof.
  exact (execute_sql_script_relative app_dir disk accepting_cursor
           "schema.sql" script_start ltac:(discriminate) eq_refl eq_refl).
Defined.

Lemma execute_sql_script_absolute_witness :
  Script.execute_sql_script app_dir disk accepting_cursor "/tmp/drop.sql"
    script_start
  = (Return (),
     {| Script.trace :=
          [Script.EvOpen "/tmp/drop.sql"; Script.EvRead; Script.EvClose;
           Script.EvExecuteScript "DROP TABLE doctors;"] |}).
Proof.
  exact (execute_sql_script_absolute app_dir disk accepting_cursor
           "/tmp/drop.sql" script_start "DROP TABLE doctors;"
           eq_refl eq_refl).
Defined.

Lemma init_registers_each_tool_witness :
  LangGraph.tools agent_with_toolbox !! "run_query"%string = Some broken_tool.
Proof.
  apply (init_registers_each_tool planner toolbox "" broken_tool).
  - apply (bool_decide_unpack _). vm_compute. reflexivity.
  - right. left.
Defined.

Lemma take_action_answers_every_call_witness :
  ∃ content tcs,
    last (LangGraph.messages wants_tables)
      = Some (LangGraph.AIMessage content tcs)
    ∧ Measure.answers
        <$> [LangGraph.ToolMessage "call_1" "list_tables"
               "doctors, appointments"]
      = (λ tc, Some (LangGraph.tc_id tc, LangGraph.tc_name tc)) <$> tcs
    ∧ 1 = LangGraph.tool_invocations fresh + length tcs
    ∧ 0 = LangGraph.model_calls fresh.
Proof.
  apply (take_action_answers_every_call str_of agent wants_tables fresh
           {| LangGraph.messages :=
                [LangGraph.ToolMessage "call_1" "list_tables"
                   "doctors, appointments"] |}
           {| LangGraph.model_calls := 0; LangGraph.tool_invocations := 1;
              LangGraph.trace := [LangGraph.EvToolInvoke "list_tables" ∅] |}).
  vm_compute. reflexivity.
Defined.

Lemma take_action_stops_at_unknown_tool_witness :
  ∃ w',
    LangGraph.take_action str_of agent_with_toolbox
      wants_tables_then_description fresh
    = (Raise (LangGraph.KeyError "describe_table"), w')
    ∧ LangGraph.tool_invocations w' = 0 + length [call_list_tables]
    ∧ LangGraph.model_calls w' = 0.
Proof.
  apply (take_action_stops_at_unknown_tool str_of agent_with_toolbox
           wants_tables_then_description fresh ""
           [call_list_tables] call_describe_table [call_list_tables]).
  - reflexivity.
  - intros [|i] tc Hi; [|discriminate Hi]. injection Hi as <-.
    exists list_tables, (PyStr "doctors, appointments").
    split; [vm_compute; reflexivity | reflexivity].
  - vm_compute. reflexivity.
Defined.

Lemma take_action_propagates_tool_error_witness :
  ∃ w',
    LangGraph.take_action str_of agent_with_toolbox
      wants_tables_then_query fresh
    = (Raise (LangGraph.Raised (Exn "OperationalError" "no such table")), w')
    ∧ LangGraph.tool_invocations w' = 0 + length [call_list_tables] + 1
    ∧ LangGraph.model_calls w' = 0.
Proof.
  apply (take_action_propagates_tool_error str_of agent_with_toolbox
           wants_tables_then_query fresh ""
           [call_list_tables] call_run_query [call_list_tables] broken_tool).
  - reflexivity.
  - intros [|i] tc Hi; [|discriminate Hi]. injection Hi as <-.
    exists list_tables, (PyStr "doctors, appointments").
    split; [vm_compute; reflexivity | reflexivity].
  - vm_compute. reflexivity.
  - reflexivity.
Defined.

Lemma graph_invoke_lookups_never_fail_witness :
  LangGraph.Raised (Exn "OperationalError" "no such table")
    ≠ LangGraph.IndexError
  ∧ ∀ m, LangGraph.Raised (Exn "OperationalError" "no such table")
         ≠ LangGraph.AttributeError m.
Proof.
  apply (graph_invoke_lookups_never_fail str_of agent_asking_query 3
           nothing_said fresh
           (LangGraph.Raised (Exn "OperationalError" "no such table"))
           (LangGraph.graph_invoke str_of 3 agent_asking_query
              nothing_said fresh).2).
  vm_compute. reflexivity.
Defined.

Lemma graph_invoke_ends_with_plain_reply_witness :
  ∃ content,
    last (LangGraph.messages after_tools)
    = Some (LangGraph.AIMessage content []).
Proof.
  apply (graph_invoke_ends_with_plain_reply str_of agent 3 asked fresh
           after_tools spent).
  vm_compute. reflexivity.
Defined.

Lemma graph_invoke_adds_replies_only_witness :
  ∃ new,
    LangGraph.messages after_tools = LangGraph.messages asked ++ new
    ∧ Forall (λ m, Measure.is_assistant m || Measure.is_tool_result m = true)
        new
    ∧ LangGraph.model_calls spent
      = LangGraph.model_calls fresh
        + length (List.filter Measure.is_assistant new)
    ∧ LangGraph.tool_invocations spent
      = LangGraph.tool_invocations fresh
        + length (List.filter Measure.is_tool_result new).
Proof.
  apply (graph_invoke_adds_replies_only str_of agent 3 asked fresh
           after_tools spent).
  vm_compute. reflexivity.
Defined.

Lemma graph_invoke_runs_every_requested_call_witness :
  ∃ new,
    LangGraph.messages after_tools = LangGraph.messages asked ++ new
    ∧ LangGraph.tool_invocations spent
      = LangGraph.tool_invocations fresh + Measure.requested_calls new.
Proof.
  apply (graph_invoke_runs_every_requested_call str_of agent 3 asked fresh
           after_tools spent).
  vm_compute. reflexivity.
Defined.

Lemma graph_invoke_gives_model_whole_history_witness :
  ∃ new evs,
    LangGraph.messages after_tools = LangGraph.messages asked ++ new
    ∧ LangGraph.trace spent = LangGraph.trace fresh ++ evs
    ∧ Measure.model_inputs evs
      = (λ history,
           LangGraph.model_input agent {| LangGraph.messages := history |})
        <$> Measure.histories_at_replies (LangGraph.messages asked) new.
Proof.
  apply (graph_invoke_gives_model_whole_history str_of agent 3 asked fresh
           after_tools spent).
  vm_compute. reflexivity.
Defined.

Lemma judgment_recorded_witness :
  ∃ w',
    Utils.evaluate_case steady_helper down_api doctors [] start
    = (Return ([] ++
         [ {| Utils.res_question := "List all doctor names";
              Utils.expected_sql := "SELECT name FROM doctors;";
              Utils.generated_sql := Some "select name from doctors"%string;
              Utils.exact_match := false;
              Utils.llm_judged_equivalent := Some "Error"%string;
              Utils.error := None |} ]), w')
    ∧ Utils.chat_calls w' = Utils.chat_calls start + 1.
Proof.
  apply (judgment_recorded steady_helper down_api doctors [] start
           (PyList [PyStr "select name from doctors"])
           "select name from doctors").
  - left. reflexivity.
  - reflexivity.
  - reflexivity.
  - discriminate.
  - vm_compute. discriminate.
Defined.

Lemma exact_match_ignores_case_and_padding_witness :
  ∃ w',
    Utils.evaluate_case shouting_helper down_api doctors [] start
    = (Return ([] ++
         [ {| Utils.res_question := "List all doctor names";
              Utils.expected_sql := "SELECT name FROM doctors;";
              Utils.generated_sql :=
                Some "  SELECT NAME FROM DOCTORS;  "%string;
              Utils.exact_match := true;
              Utils.llm_judged_equivalent := None;
              Utils.error := None |} ]), w')
    ∧ Utils.chat_calls w' = Utils.chat_calls start.
Proof.
  apply (exact_match_ignores_case_and_padding shouting_helper down_api
           doctors [] start
           (PyList [PyStr "  SELECT NAME FROM DOCTORS;  "])
           "  " "SELECT NAME FROM DOCTORS;" "  "
           "" "SELECT name FROM doctors;" "").
  - left. reflexivity.
  - reflexivity.
  - reflexivity.
  - discriminate.
  - reflexivity.
  - reflexivity.
  - reflexivity.
  - reflexivity.
  - reflexivity.
  - reflexivity.
Defined.

Lemma bare_string_answer_keeps_first_character_witness :
  ∃ r w',
    Utils.evaluate_case bare_helper down_api doctors [] start
      = (Return ([] ++ [r]), w')
    ∧ Utils.generated_sql r = Some "S"%string
    ∧ Utils.error r = None
    ∧ Utils.exact_match r
      = String.eqb (PyStr.lower (PyStr.strip "S"))
          (PyStr.lower (PyStr.strip (Utils.actual_query doctors))).
Proof.
  apply (bare_string_answer_keeps_first_character bare_helper down_api
           doctors [] start "S" "ELECT name FROM doctors;").
  left. reflexivity.
Defined.

Lemma first_element_without_strip_is_failure_witness :
  ∃ w',
    Utils.evaluate_case numbers_helper down_api doctors [] start
    = (Return ([] ++
         [ {| Utils.res_question := "List all doctor names";
              Utils.expected_sql := "SELECT name FROM doctors;";
              Utils.generated_sql := None;
              Utils.exact_match := false;
              Utils.llm_judged_equivalent := None;
              Utils.error :=
                Some "'int' object has no attribute 'strip'"%string |} ]),
       w')
    ∧ Utils.chat_calls w' = Utils.chat_calls start.
Proof.
  apply (first_element_without_strip_is_failure numbers_helper down_api
           doctors [] start (PyList [PyInt 7]) (PyInt 7)).
  - left. reflexivity.
  - reflexivity.
  - reflexivity.
  - reflexivity.
  - left. by exists 7%Z.
Defined.

Lemma non_subscriptable_answer_is_failure_witness :
  ∃ w',
    Utils.evaluate_case number_helper down_api doctors [] start
    = (Return ([] ++
         [ {| Utils.res_question := "List all doctor names";
              Utils.expected_sql := "SELECT name FROM doctors;";
              Utils.generated_sql := None;
              Utils.exact_match := false;
              Utils.llm_judged_equivalent := None;
              Utils.error :=
                Some "'int' object is not subscriptable"%string |} ]), w')
    ∧ Utils.chat_calls w' = Utils.chat_calls start.
Proof.
  apply (non_subscriptable_answer_is_failure number_helper down_api
           doctors [] start (PyInt 7)
           (Exn "TypeError" "'int' object is not subscriptable")).
  - left. reflexivity.
  - reflexivity.
  - reflexivity.
Defined.

Lemma returned_answer_is_not_retried_witness :
  ∃ r w' evs,
    Utils.evaluate_case silent_helper down_api doctors [] start
      = (Return ([] ++ [r]), w')
    ∧ Utils.trace w' = Utils.trace start ++ evs
    ∧ Utils.get_sql_calls w' = Utils.get_sql_calls start + 1
    ∧ Measure.sleep_seconds evs = 2.
Proof.
  apply (returned_answer_is_not_retried silent_helper down_api doctors []
           start (PyList [PyStr ""])).
  reflexivity.
Defined.

End OnCases.
